(** * CityNext: the appointment handler of [main.go], embedded and verified

    The development follows [main.go]:
    - the Go library functions the handler calls ([strconv.Atoi],
      [time.Parse] with the layout "2006-01-02", [time.Date], [Time.Before],
      [Time.Format]) are modelled after the Go sources in [GoLib];
    - the SQLite table created by [initDB] and the two statements the
      handler sends to it are modelled in [Store];
    - [createAppointment] is a program over these two statements
      ([Handler]), so that several requests can be interleaved at the
      granularity of one statement. *)

From Stdlib Require Import ZArith Lia Bool List Ascii String.
From stdpp Require Import gmap strings.
Import ListNotations.

Local Open Scope string_scope.
Local Open Scope Z_scope.

(* ===================================================================== *)
(** ** Go strings: bytes, indexing and slicing *)
(* ===================================================================== *)

Module GoString.

(** [s[i]] as an integer, [c - '0'] for a decimal digit. *)
Definition byte_val (c : ascii) : Z := Z.of_N (N_of_ascii c).

Definition is_digit (c : ascii) : bool :=
  (48 <=? byte_val c) && (byte_val c <=? 57).

Definition digit_val (c : ascii) : Z := byte_val c - 48.

Definition digit_char (d : Z) : ascii := ascii_of_N (Z.to_N (48 + d)).

(** [s[n:]] *)
Fixpoint drop (n : nat) (s : string) : string :=
  match n, s with
  | O, _ => s
  | S n', String _ r => drop n' r
  | S _, EmptyString => EmptyString
  end.

(** [s[:n]] *)
Fixpoint take (n : nat) (s : string) : string :=
  match n, s with
  | O, _ => EmptyString
  | S n', String c r => String c (take n' r)
  | S _, EmptyString => EmptyString
  end.

Definition is_empty (s : string) : bool :=
  match s with EmptyString => true | _ => false end.

End GoString.
Import GoString.

(* ===================================================================== *)
(** ** The Go library functions used by the handler *)
(* ===================================================================== *)

Module GoLib.

(** *** strconv.Atoi (base 10, 64-bit int)

    An optional sign, then at least one character, all of them decimal
    digits; a value outside the range of [int] is an error. The fast
    path and [ParseInt] agree on this, so one definition covers both. *)
Fixpoint parse_digits (s : string) (acc : Z) : option Z :=
  match s with
  | EmptyString => Some acc
  | String c r =>
      if is_digit c then parse_digits r (acc * 10 + digit_val c) else None
  end.

(** [s[0] == '-' || s[0] == '+']: the sign is cut off and remembered. *)
Definition cut_sign (s : string) : bool * string :=
  match s with
  | String c r =>
      if Ascii.eqb c "-" then (true, r)
      else if Ascii.eqb c "+" then (false, r)
      else (false, s)
  | EmptyString => (false, s)
  end.

Definition Atoi (s : string) : option Z :=
  let '(neg, ds) := cut_sign s in
  if is_empty ds then None
  else match parse_digits ds 0 with
       | None => None
       | Some un =>
           if neg then (if un <=? 2 ^ 63 then Some (- un) else None)
           else (if un <? 2 ^ 63 then Some un else None)
       end.

(** *** package time

    A [time.Time] in UTC, held as its civil fields: year, month (1..12),
    day of the month and the nanoseconds elapsed since midnight. On such
    values [Before] is the lexicographic order of the fields. *)
Record Time := mkTime { t_year : Z; t_month : Z; t_day : Z; t_nsec : Z }.

Definition isLeap (year : Z) : bool :=
  (Z.rem year 4 =? 0) && (negb (Z.rem year 100 =? 0) || (Z.rem year 400 =? 0)).

Definition daysIn (m year : Z) : Z :=
  if (m =? 2) && isLeap year then 29
  else match m with
       | 1 => 31 | 2 => 28 | 3 => 31 | 4 => 30 | 5 => 31 | 6 => 30
       | 7 => 31 | 8 => 31 | 9 => 30 | 10 => 31 | 11 => 30 | 12 => 31
       | _ => 0
       end.

(** A civil date-time as [Time.Year], [Month], [Day] report it. *)
Definition valid_time (t : Time) : Prop :=
  1 <= t_month t <= 12 /\ 1 <= t_day t <= daysIn (t_month t) (t_year t)
  /\ 0 <= t_nsec t < 86400000000000.

Definition Before (t u : Time) : bool :=
  (t_year t <? t_year u)
  || ((t_year t =? t_year u)
      && ((t_month t <? t_month u)
          || ((t_month t =? t_month u)
              && ((t_day t <? t_day u)
                  || ((t_day t =? t_day u) && (t_nsec t <? t_nsec u)))))).

(** [time.Date(year, month, day, 0, 0, 0, 0, time.UTC)]: a month outside
    1..12 carries into the year and a day past the end of the month
    carries into the following months (October 32 is November 1). Days
    below 1 do not occur in the handler and are left as they are. The
    arithmetic is that of the calendar on all of Z: it is what Go computes
    for the years a [time.Time] can hold ([representable_year]); beyond
    them Go's seconds wrap, and every statement that uses the value of
    [Date] is stated for representable years only. *)
Fixpoint norm_day (fuel : nat) (year month day : Z) : Time :=
  match fuel with
  | O => mkTime year month day 0
  | S fuel' =>
      if day <=? daysIn month year then mkTime year month day 0
      else if month =? 12
           then norm_day fuel' (year + 1) 1 (day - daysIn month year)
           else norm_day fuel' year (month + 1) (day - daysIn month year)
  end.

Definition Date (year month day : Z) : Time :=
  let m := month - 1 in
  norm_day (Z.to_nat day) (year + m / 12) (m mod 12 + 1) day.

(** [appendInt(b, x, width)]: the decimal form of [x], zero-padded to
    [width] digits, with a leading minus for a negative [x]. *)
Fixpoint lowDigits (n : nat) (u : Z) (acc : string) : string :=
  match n with
  | O => acc
  | S n' => lowDigits n' (u / 10) (String (digit_char (u mod 10)) acc)
  end.

Fixpoint numDigits (fuel : nat) (u : Z) : nat :=
  match fuel with
  | O => O
  | S fuel' => if u <=? 0 then O else S (numDigits fuel' (u / 10))
  end.

Definition appendInt (x : Z) (width : nat) : string :=
  let u := Z.abs x in
  (if x <? 0 then "-" else "")
    +:+ lowDigits (Nat.max width (numDigits 20 u)) u "".

(** [t.Format("2006-01-02")] *)
Definition Format (t : Time) : string :=
  appendInt (t_year t) 4 +:+ "-" +:+ appendInt (t_month t) 2
    +:+ "-" +:+ appendInt (t_day t) 2.

(** [isDigit(s, i)] of package time *)
Definition isDigit (s : string) (i : nat) : bool :=
  match String.get i s with
  | Some c => is_digit c
  | None => false
  end.

Definition at0 (s : string) (i : nat) : Z :=
  match String.get i s with
  | Some c => digit_val c
  | None => 0
  end.

(** [getnum(s, fixed)]: one or two digits; with [fixed] exactly two. *)
Definition getnum (s : string) (fixed : bool) : option (Z * string) :=
  if negb (isDigit s 0) then None
  else if negb (isDigit s 1) then
         (if fixed then None else Some (at0 s 0, drop 1 s))
       else Some (at0 s 0 * 10 + at0 s 1, drop 2 s).

(** [leadingInt(s)]: the leading digits of [s] and the rest; an error
    when the value passes 1<<63. *)
Fixpoint leadingInt (s : string) (x : Z) : option (Z * string) :=
  match s with
  | EmptyString => Some (x, s)
  | String c r =>
      if negb (is_digit c) then Some (x, s)
      else if 2 ^ 63 / 10 <? x then None
           else let x' := x * 10 + digit_val c in
                if 2 ^ 63 <? x' then None else leadingInt r x'
  end.

(** [atoi(s)] of package time: sign, digits, and nothing after them. *)
Definition atoi (s : string) : option Z :=
  let '(neg, ds) := cut_sign s in
  match leadingInt ds 0 with
  | Some (q, EmptyString) => Some (if neg then - q else q)
  | _ => None
  end.

(** [skip(value, prefix)] for a prefix without spaces, here "-". *)
Fixpoint skip (value pre : string) {struct pre} : option string :=
  match pre with
  | EmptyString => Some value
  | String p pre' =>
      match value with
      | String c r => if Ascii.eqb c p then skip r pre' else None
      | EmptyString => None
      end
  end.

(** [time.Parse("2006-01-02", value)], chunk by chunk as [Parse] walks
    the layout: stdLongYear, "-", stdZeroMonth, "-", stdZeroDay, end of
    layout (no text may remain), then the day-of-month validation. The
    result is midnight UTC of the parsed date. *)
Definition Parse (value : string) : option Time :=
  if (String.length value <? 4)%nat || negb (isDigit value 0) then None
  else
    match atoi (take 4 value) with
    | None => None
    | Some year =>
        match skip (drop 4 value) "-" with
        | None => None
        | Some value =>
            match getnum value true with
            | None => None
            | Some (month, value) =>
                if (month <=? 0) || (12 <? month) then None
                else
                  match skip value "-" with
                  | None => None
                  | Some value =>
                      match getnum value true with
                      | None => None
                      | Some (day, value) =>
                          if negb (is_empty value) then None
                          else if (day <? 1) || (daysIn month year <? day)
                               then None
                               else Some (mkTime year month day 0)
                      end
                  end
            end
        end
    end.

End GoLib.
Import GoLib.

(* ===================================================================== *)
(** ** The appointments table and the statements sent to it *)
(* ===================================================================== *)

Module Store.

(** [type Appointment struct]: one row of the table, as scanned back. *)
Record Appointment := mkAppointment {
  ID : Z;
  FirstName : string;
  LastName : string;
  VisitDate : string;
  CreatedAt : Time
}.

(** What [QueryRow(...).Scan] can return as a non-nil error: the UNIQUE
    constraint of [visit_date] refusing the row, or any failure of the
    driver, the connection or the file. *)
Inductive DbError := UniqueConstraintFailed | DriverFailure.

(** The table of [initDB]: its rows in insertion order and the
    AUTOINCREMENT counter of [id]. *)
Record DB := mkDB { rows : list Appointment; seq : Z }.

Definition empty : DB := mkDB [] 0.

(** What the environment decides for one statement: whether it fails
    for a reason of its own, and the CURRENT_TIMESTAMP it would use. *)
Record Oracle := mkOracle { fault : option DbError; timestamp : Time }.

(** [SELECT COUNT( * ) FROM appointments WHERE visit_date = ?] *)
Fixpoint count_rows (l : list Appointment) (visit_date : string) : Z :=
  match l with
  | [] => 0
  | a :: l' =>
      (if String.eqb (VisitDate a) visit_date then 1 else 0)
      + count_rows l' visit_date
  end.

Definition select_count (o : Oracle) (db : DB) (visit_date : string)
  : Z + DbError :=
  match fault o with
  | Some e => inr e
  | None => inl (count_rows (rows db) visit_date)
  end.

(** [INSERT INTO appointments (first_name, last_name, visit_date)
    VALUES (?, ?, ?) RETURNING ...]: [visit_date] is UNIQUE, so a row
    whose date is in the table is refused and the table is left as it
    was; otherwise the row is appended with the next [id]. *)
Definition insert_returning (o : Oracle) (db : DB)
    (first_name last_name visit_date : string)
  : (Appointment + DbError) * DB :=
  match fault o with
  | Some e => (inr e, db)
  | None =>
      if 0 <? count_rows (rows db) visit_date
      then (inr UniqueConstraintFailed, db)
      else
        let a := mkAppointment (seq db + 1) first_name last_name
                   visit_date (timestamp o) in
        (inl a, mkDB (rows db ++ [a]) (seq db + 1))
  end.

Definition dates (db : DB) : list string := map VisitDate (rows db).

End Store.

(* ===================================================================== *)
(** ** Programs over the table *)
(* ===================================================================== *)

(** A handler is a program that ends with a value or sends one of the two
    statements and continues with its answer. Each statement is atomic;
    between two statements of one handler, other handlers may run. *)
Inductive Handler (A : Type) : Type :=
| Ret (a : A)
| QueryCount (visit_date : string)
    (k : Z + Store.DbError -> Handler A)
| QueryInsert (first_name last_name visit_date : string)
    (k : Store.Appointment + Store.DbError -> Handler A).

Arguments Ret {A} a.
Arguments QueryCount {A} visit_date k.
Arguments QueryInsert {A} first_name last_name visit_date k.

Fixpoint bind {A B} (h : Handler A) (f : A -> Handler B) : Handler B :=
  match h with
  | Ret a => f a
  | QueryCount d k => QueryCount d (fun r => bind (k r) f)
  | QueryInsert fn ln d k => QueryInsert fn ln d (fun r => bind (k r) f)
  end.

#[global] Instance Handler_ret : MRet Handler := fun A a => Ret a.
#[global] Instance Handler_bind : MBind Handler := fun A B f h => bind h f.

(** The statements a run has sent, in order. *)
Inductive DbOp :=
| OpCount (visit_date : string)
| OpInsert (first_name last_name visit_date : string).

(** One handler run alone from [db]; statement number [n] is decided by
    [orc n]. The result is the value, the table and the statements sent. *)
Fixpoint run {A} (h : Handler A) (orc : nat -> Store.Oracle) (n : nat)
    (db : Store.DB) : A * Store.DB * list DbOp :=
  match h with
  | Ret a => (a, db, [])
  | QueryCount d k =>
      let '(a, db', ops) := run (k (Store.select_count (orc n) db d)) orc (S n) db in
      (a, db', OpCount d :: ops)
  | QueryInsert fn ln d k =>
      let '(ans, db1) := Store.insert_returning (orc n) db fn ln d in
      let '(a, db', ops) := run (k ans) orc (S n) db1 in
      (a, db', OpInsert fn ln d :: ops)
  end.

(** One statement of a handler, run against [db]. *)
Definition fire {A} (o : Store.Oracle) (db : Store.DB) (h : Handler A)
    : Store.DB * Handler A :=
  match h with
  | Ret a => (db, Ret a)
  | QueryCount d k => (db, k (Store.select_count o db d))
  | QueryInsert fn ln d k =>
      let '(ans, db') := Store.insert_returning o db fn ln d in (db', k ans)
  end.

(* ===================================================================== *)
(** ** net/http: the response writer and the request *)
(* ===================================================================== *)

(** [type ErrorResponse struct] *)
Record ErrorResponse := mkErrorResponse { Error : string; Message : string }.

(** A value handed to [json.NewEncoder(w).Encode]. *)
Inductive JsonValue :=
| JsonError (e : ErrorResponse)
| JsonAppointment (a : Store.Appointment).

(** The [http.ResponseWriter] as the handler can change it: the header
    map, the status code once written, and the values encoded to the
    body. *)
Record ResponseWriter := mkWriter {
  Header : gmap string string;
  Code : option Z;
  Written : list JsonValue
}.

Definition newWriter : ResponseWriter := mkWriter ∅ None [].

Definition SetHeader (w : ResponseWriter) (key value : string) : ResponseWriter :=
  mkWriter (<[key := value]> (Header w)) (Code w) (Written w).

(** [w.WriteHeader(code)]: only the first call sets the status. *)
Definition WriteHeader (w : ResponseWriter) (code : Z) : ResponseWriter :=
  match Code w with
  | Some _ => w
  | None => mkWriter (Header w) (Some code) (Written w)
  end.

(** [json.NewEncoder(w).Encode(v)]: a write; the first write sends status
    200 when none was written. *)
Definition Encode (w : ResponseWriter) (v : JsonValue) : ResponseWriter :=
  let w := WriteHeader w 200 in
  mkWriter (Header w) (Code w) (Written w ++ [v]).

(** What the client receives once the handler has returned: net/http
    sends status 200 for a handler that wrote nothing. *)
Definition client_view (w : ResponseWriter) : Z * list JsonValue :=
  (default 200 (Code w), Written w).

(** [type AppointmentRequest struct] *)
Record AppointmentRequest := mkRequest {
  FirstName : string;
  LastName : string;
  VisitDate : string
}.

(** The [*http.Request]: its method, and its body as
    [json.NewDecoder(r.Body).Decode(&req)] reads it, [None] when the
    decoder returns an error. *)
Record Request := mkHttpRequest {
  Method : string;
  Body : option AppointmentRequest
}.

(* ===================================================================== *)
(** ** The server of main.go *)
(* ===================================================================== *)

(** [type Server struct]; the [db] field is the table the statements of a
    [Handler] run against. *)
Record Server := mkServer {
  publicHolidays : gmap string bool;
  yearStr : string;
  todayOverride : option Time
}.

(** [func NewServer(db)]: no holidays, and the zero values of the other
    fields until [loadPublicHolidays] or a test sets them. *)
Definition NewServer : Server := mkServer ∅ "" None.

Definition StatusCreated : Z := 201.
Definition StatusBadRequest : Z := 400.
Definition StatusMethodNotAllowed : Z := 405.
Definition StatusConflict : Z := 409.
Definition StatusInternalServerError : Z := 500.

Definition sendErrorResponse (w : ResponseWriter) (statusCode : Z)
    (errorType message : string) : ResponseWriter :=
  let w := SetHeader w "Content-Type" "application/json" in
  let w := WriteHeader w statusCode in
  Encode w (JsonError (mkErrorResponse errorType message)).

Definition isPublicHoliday (s : Server) (visitDate : Time) : bool :=
  let visitDateStr := Format visitDate in
  default false (publicHolidays s !! visitDateStr).

Definition appointmentExists (visitDate : Time)
    : Handler (bool * option Store.DbError) :=
  QueryCount (Format visitDate) (fun r =>
    match r with
    | inr err => Ret (false, Some err)
    | inl count => Ret (0 <? count, None)
    end).

(** The fake "today": the override when there is one, otherwise the
    month and day of the clock in the server's year. *)
Definition referenceToday (s : Server) (year : Z) (now : Time) : Time :=
  match todayOverride s with
  | Some t => t
  | None => Date year (t_month now) (t_day now)
  end.

(** [func (s *Server) createAppointment(w, r)]; [now] is what
    [time.Now().UTC()] returns. The log lines are not modelled. *)
Definition createAppointment (s : Server) (now : Time) (w : ResponseWriter)
    (r : Request) : Handler ResponseWriter :=
  match Atoi (yearStr s) with
  | None => Ret w
  | Some year =>
  let today := referenceToday s year now in
  if negb (String.eqb (Method r) "POST") then
    Ret (sendErrorResponse w StatusMethodNotAllowed "method_not_allowed"
           "Only POST method is allowed")
  else
  match Body r with
  | None =>
    Ret (sendErrorResponse w StatusBadRequest "invalid_json"
           "Invalid JSON format")
  | Some req =>
  if is_empty (FirstName req) || is_empty (LastName req)
     || is_empty (VisitDate req) then
    Ret (sendErrorResponse w StatusBadRequest "missing_fields"
           "First name, last name, and visit date are required")
  else
  match Parse (VisitDate req) with
  | None =>
    Ret (sendErrorResponse w StatusBadRequest "invalid_date"
           "Visit date must be in YYYY-MM-DD format")
  | Some visitDate =>
  if negb (t_year visitDate =? t_year today) then
    Ret (sendErrorResponse w StatusBadRequest "invalid_year"
           "Appointments can only be scheduled for year 2075")
  else if Before visitDate today then
    Ret (sendErrorResponse w StatusBadRequest "past_date"
           "Visit date cannot be in the past")
  else if isPublicHoliday s visitDate then
    Ret (sendErrorResponse w StatusBadRequest "public_holiday"
           "Appointments cannot be scheduled on public holidays")
  else
    res ← appointmentExists visitDate;
    match res with
    | (_, Some _) =>
      Ret (sendErrorResponse w StatusInternalServerError "database_error"
             "Failed checking existing appointments")
    | (true, None) =>
      Ret (sendErrorResponse w StatusConflict "duplicate_appointment"
             "An appointment is already Scheduled for this date")
    | (false, None) =>
      QueryInsert (FirstName req) (LastName req) (Format visitDate)
        (fun ans =>
           match ans with
           | inr _ =>
             Ret (sendErrorResponse w StatusInternalServerError
                    "database_error" "Failed to create appointment")
           | inl appointment =>
             let w := SetHeader w "Content-Type" "application/json" in
             let w := WriteHeader w StatusCreated in
             Ret (Encode w (JsonAppointment appointment))
           end)
    end
  end
  end
  end.

(* ===================================================================== *)
(** ** Requests served concurrently *)
(* ===================================================================== *)

(** The table and the handlers in flight, finished ones included. *)
Record System := mkSystem {
  sys_db : Store.DB;
  sys_threads : list (Handler ResponseWriter)
}.

Definition boot : System := mkSystem Store.empty [].

(** A request arrives and its handler starts, or handler [i] sends its
    next statement. *)
Inductive Action :=
| Arrive (now : Time) (r : Request)
| Fire (i : nat) (o : Store.Oracle).

Definition act (s : Server) (sys : System) (a : Action) : System :=
  match a with
  | Arrive now r =>
      mkSystem (sys_db sys)
        (sys_threads sys ++ [createAppointment s now newWriter r])
  | Fire i o =>
      match sys_threads sys !! i with
      | None => sys
      | Some h =>
          let '(db', h') := fire o (sys_db sys) h in
          mkSystem db' (<[i := h']> (sys_threads sys))
      end
  end.

Definition exec (s : Server) (sys : System) (acts : list Action) : System :=
  fold_left (act s) acts sys.

(** The server of [setupTestServer] in appointment_test.go. *)
Definition testHolidays : gmap string bool :=
  list_to_map
    [("2075-01-01", true); ("2075-01-02", true); ("2075-03-18", true);
     ("2075-04-05", true); ("2075-04-08", true); ("2075-05-06", true);
     ("2075-05-27", true); ("2075-07-12", true); ("2075-08-05", true);
     ("2075-08-26", true); ("2075-12-02", true); ("2075-12-25", true);
     ("2075-12-26", true)].

Definition testServer : Server :=
  mkServer testHolidays "2075" (Some (mkTime 2075 1 1 0)).

Definition post (first last date : string) : Request :=
  mkHttpRequest "POST" (Some (mkRequest first last date)).

Definition ok : Store.Oracle := Store.mkOracle None (mkTime 2025 10 31 0).

Definition response (h : Handler ResponseWriter) (db : Store.DB)
    : Z * list JsonValue :=
  client_view (fst (fst (run h (fun _ => ok) 0%nat db))).

Definition errorOf (statusCode : Z) (errorType message : string)
    : Z * list JsonValue :=
  (statusCode, [JsonError (mkErrorResponse errorType message)]).

(* ===================================================================== *)
(** ** The specification's notions *)
(* ===================================================================== *)

(** The reason code a response carries, when it is an error response. *)
Definition reason_of (w : ResponseWriter) : option string :=
  match Written w with
  | [JsonError e] => Some (Error e)
  | _ => None
  end.

(** The 201 response: the new row as JSON. *)
Definition created (w : ResponseWriter) (a : Store.Appointment)
    : ResponseWriter :=
  Encode (WriteHeader (SetHeader w "Content-Type" "application/json")
            StatusCreated)
         (JsonAppointment a).

(** The pattern of the specification, position by position: four digits,
    a dash, two digits, a dash, two digits and nothing else, the month
    within 1..12 and the day within the month. *)
Definition matches_layout (s : string) : bool :=
  match s with
  | String y0 (String y1 (String y2 (String y3 (String sep1
      (String m0 (String m1 (String sep2 (String d0 (String d1
        EmptyString))))))))) =>
      let year := 1000 * digit_val y0 + 100 * digit_val y1
                  + 10 * digit_val y2 + digit_val y3 in
      let month := 10 * digit_val m0 + digit_val m1 in
      let day := 10 * digit_val d0 + digit_val d1 in
      is_digit y0 && is_digit y1 && is_digit y2 && is_digit y3
      && Ascii.eqb sep1 "-" && is_digit m0 && is_digit m1
      && Ascii.eqb sep2 "-" && is_digit d0 && is_digit d1
      && (1 <=? month) && (month <=? 12)
      && (1 <=? day) && (day <=? daysIn month year)
  | _ => false
  end.

(** The six checks of the specification's validator, in its order. Each
    one is stated on its own, on the request as received; a check on the
    parsed date has nothing to refuse when the date does not parse. *)
Inductive Check :=
| FieldPresence
| DateParse
| YearBound
| PastDateBound
| HolidayExclusion
| DuplicateExclusion.

Definition checks_in_order : list Check :=
  [FieldPresence; DateParse; YearBound; PastDateBound; HolidayExclusion;
   DuplicateExclusion].

Definition reason_code (c : Check) : string :=
  match c with
  | FieldPresence => "missing_fields"
  | DateParse => "invalid_date"
  | YearBound => "invalid_year"
  | PastDateBound => "past_date"
  | HolidayExclusion => "public_holiday"
  | DuplicateExclusion => "duplicate_appointment"
  end.

Definition status_of (c : Check) : Z :=
  match c with
  | DuplicateExclusion => StatusConflict
  | _ => StatusBadRequest
  end.

Definition on_parsed (req : AppointmentRequest) (p : Time -> bool) : bool :=
  match Parse (VisitDate req) with
  | Some visitDate => p visitDate
  | None => false
  end.

Definition fails (s : Server) (today : Time) (db : Store.DB)
    (req : AppointmentRequest) (c : Check) : bool :=
  match c with
  | FieldPresence =>
      is_empty (FirstName req) || is_empty (LastName req)
      || is_empty (VisitDate req)
  | DateParse =>
      match Parse (VisitDate req) with Some _ => false | None => true end
  | YearBound =>
      on_parsed req (fun d => negb (t_year d =? t_year today))
  | PastDateBound =>
      on_parsed req (fun d => Before d today)
  | HolidayExclusion =>
      on_parsed req (fun d => default false (publicHolidays s !! Format d))
  | DuplicateExclusion =>
      on_parsed req (fun d => 0 <? Store.count_rows (Store.rows db) (Format d))
  end.

Definition first_failure (s : Server) (today : Time) (db : Store.DB)
    (req : AppointmentRequest) : option Check :=
  List.find (fails s today db req) checks_in_order.

(** The year the year bound compares with: the override's year when there
    is an override, the server's year otherwise. *)
Definition operating_year (s : Server) (year : Z) : Z :=
  match todayOverride s with
  | Some t => t_year t
  | None => year
  end.

(** The years a [time.Time] can hold with seconds in 64 bits; [Date] is
    exact on them. *)
Definition representable_year (year : Z) : Prop :=
  -292277022399 <= year <= 292277022399.

(** The reasons of the checks that come before the store is consulted. *)
Definition early_reasons : list string :=
  ["missing_fields"; "invalid_date"; "invalid_year"; "past_date";
   "public_holiday"].

(** Two requests for one free date, both past the pre-check before
    either inserts. *)
Definition race : list Action :=
  [Arrive (mkTime 2025 10 31 0) (post "Dana" "Valid" "2075-06-15");
   Arrive (mkTime 2025 10 31 0) (post "Eve" "Late" "2075-06-15");
   Fire 0 ok; Fire 1 ok; Fire 0 ok; Fire 1 ok].

(** What the handler does once the five checks have passed: it sends the
    count query and, by its answer, reports a failed lookup, a duplicate,
    or sends the insert; [insert_form] is what it does with the insert's
    answer. *)
Definition insert_form (w : ResponseWriter)
    (k : Store.Appointment + Store.DbError -> Handler ResponseWriter) : Prop :=
  (forall e, k (inr e) =
     Ret (sendErrorResponse w StatusInternalServerError "database_error"
            "Failed to create appointment"))
  /\ (forall a, k (inl a) = Ret (created w a)).

Definition lookup_form (w : ResponseWriter) (req : AppointmentRequest)
    (visitDate : Time) (h : Handler ResponseWriter) : Prop :=
  exists k,
    h = QueryCount (Format visitDate) k
    /\ (forall e, k (inr e) =
          Ret (sendErrorResponse w StatusInternalServerError "database_error"
                 "Failed checking existing appointments"))
    /\ (forall count, 0 < count -> k (inl count) =
          Ret (sendErrorResponse w StatusConflict "duplicate_appointment"
                 "An appointment is already Scheduled for this date"))
    /\ (forall count, count <= 0 ->
          exists k',
            k (inl count) =
              QueryInsert (FirstName req) (LastName req) (Format visitDate) k'
            /\ insert_form w k').

(** A handler in flight is finished, waits for the answer to its count
    query, or waits for the answer to its insert. *)
Definition in_flight (h : Handler ResponseWriter) : Prop :=
  match h with
  | Ret _ => True
  | QueryCount _ k =>
      forall ans,
        match k ans with
        | Ret _ => True
        | QueryCount _ _ => False
        | QueryInsert _ _ _ k' => insert_form newWriter k'
        end
  | QueryInsert _ _ _ k' => insert_form newWriter k'
  end.

(** At most one appointment per visit date. *)
Definition at_most_one (db : Store.DB) : Prop :=
  forall visit_date, Store.count_rows (Store.rows db) visit_date <= 1.

(** The table only grows: the rows of [db] are the first rows of [db']. *)
Definition extends (db db' : Store.DB) : Prop :=
  exists added, Store.rows db' = (Store.rows db ++ added)%list.

(** What every state of the running server satisfies. *)
Definition sys_inv (sys : System) : Prop :=
  at_most_one (sys_db sys) /\ Forall in_flight (sys_threads sys).

(** The race stopped before the second insert. *)
Definition race_before_second_insert : list Action :=
  [Arrive (mkTime 2025 10 31 0) (post "Dana" "Valid" "2075-06-15");
   Arrive (mkTime 2025 10 31 0) (post "Eve" "Late" "2075-06-15");
   Fire 0 ok; Fire 1 ok; Fire 0 ok].

(** The test server with its today pinned to another day. *)
Definition serverPinnedTo (today : Time) : Server :=
  mkServer testHolidays "2075" (Some today).

(* ===================================================================== *)
(** ** The rest of main.go: the holiday loader and the CORS middleware *)
(* ===================================================================== *)

Module Nager.

(** [type PublicHoliday struct]: one entry of the Nager date API. *)
Record PublicHoliday := mkPublicHoliday {
  Date : string;
  LocalName : string;
  Name : string;
  CountryCode : string;
  Fixed : bool;
  Global : bool;
  Counties : list string;
  LaunchYear : Z;
  Types : list string
}.

End Nager.

(** What [http.Get(url)] gives [loadPublicHolidays]: an error, or a
    response with its status code and its body as
    [json.NewDecoder(resp.Body).Decode(&holidays)] reads it, [None] when
    the decoder returns an error. *)
Inductive GetResult :=
| GetFailed
| GetResponse (StatusCode : Z) (decoded : option (list Nager.PublicHoliday)).

(** The three errors [loadPublicHolidays] returns. *)
Inductive LoadError :=
| FetchFailed
| BadStatus (StatusCode : Z)
| DecodeFailed.

(** [for _, holiday := range holidays { s.publicHolidays[holiday.Date] = true }] *)
Definition cacheHolidays (m : gmap string bool)
    (holidays : list Nager.PublicHoliday) : gmap string bool :=
  fold_left (fun m holiday => <[Nager.Date holiday := true]> m) holidays m.

(** [func (s *Server) loadPublicHolidays(yearStr, countryCode)]; [get] is
    [http.Get] together with the decoding of the body. The server is
    returned as the call leaves it. *)
Definition loadPublicHolidays (s : Server) (yearStr countryCode : string)
    (get : string -> GetResult) : Server * option LoadError :=
  let url := "https://date.nager.at/api/v3/PublicHolidays/" +:+ yearStr
             +:+ "/" +:+ countryCode in
  let s := mkServer (publicHolidays s) yearStr (todayOverride s) in
  match get url with
  | GetFailed => (s, Some FetchFailed)
  | GetResponse StatusCode decoded =>
      if negb (StatusCode =? 200) then (s, Some (BadStatus StatusCode))
      else
        match decoded with
        | None => (s, Some DecodeFailed)
        | Some holidays =>
            (mkServer (cacheHolidays (publicHolidays s) holidays) yearStr
               (todayOverride s),
             None)
        end
  end.

(** The function [main] gives to [r.Use]: it sets the three CORS headers,
    answers OPTIONS itself and hands every other request to [next]. *)
Definition corsMiddleware
    (next : ResponseWriter -> Request -> Handler ResponseWriter)
    (w : ResponseWriter) (r : Request) : Handler ResponseWriter :=
  let w := SetHeader w "Access-Control-Allow-Origin" "*" in
  let w := SetHeader w "Access-Control-Allow-Methods" "POST, OPTIONS" in
  let w := SetHeader w "Access-Control-Allow-Headers" "Content-Type" in
  if String.eqb (Method r) "OPTIONS" then Ret (WriteHeader w 200)
  else next w r.

(* ===================================================================== *)
(** ** Notions for the properties of the whole handler *)
(* ===================================================================== *)

(** What one run of the handler writes: nothing, an error response, or
    the new appointment. *)
Inductive Outcome :=
| Silent
| Rejected (statusCode : Z) (errorType message : string)
| Booked (a : Store.Appointment).

Definition write_outcome (w : ResponseWriter) (o : Outcome) : ResponseWriter :=
  match o with
  | Silent => w
  | Rejected statusCode errorType message =>
      sendErrorResponse w statusCode errorType message
  | Booked a => created w a
  end.


(** The row the handler inserts for a request. *)
Definition row_for (req : AppointmentRequest) (db : Store.DB)
    (created_at : Time) : Store.Appointment :=
  Store.mkAppointment (Store.seq db + 1) (FirstName req) (LastName req)
    (VisitDate req) created_at.

(** The appointment a response carries, when it is the 201 response. *)
Definition booking (w : ResponseWriter) : option Store.Appointment :=
  match Written w with
  | [JsonAppointment a] => Some a
  | _ => None
  end.

(** A row the handler may have written: both names present, the date a
    real calendar date in the layout, and not a holiday of the server. *)
Definition well_formed_row (s : Server) (a : Store.Appointment) : Prop :=
  Store.FirstName a <> "" /\ Store.LastName a <> ""
  /\ matches_layout (Store.VisitDate a) = true
  /\ default false (publicHolidays s !! Store.VisitDate a) = false.

(** The ids of the table: positive, at most the counter, and growing in
    insertion order. *)
Definition ids_ascending (db : Store.DB) : Prop :=
  0 <= Store.seq db
  /\ Forall (fun a => 1 <= Store.ID a <= Store.seq db) (Store.rows db)
  /\ forall (i j : nat) a b,
       Store.rows db !! i = Some a -> Store.rows db !! j = Some b ->
       (i < j)%nat -> Store.ID a < Store.ID b.

(** The three headers of the middleware. *)
Definition cors_headers (w : ResponseWriter) : Prop :=
  Header w !! "Access-Control-Allow-Origin" = Some "*"
  /\ Header w !! "Access-Control-Allow-Methods" = Some "POST, OPTIONS"
  /\ Header w !! "Access-Control-Allow-Headers" = Some "Content-Type".

(** The invariant behind the properties of the running server. *)
Definition insert_ok (s : Server) (first_name last_name visit_date : string)
    (k : Store.Appointment + Store.DbError -> Handler ResponseWriter) : Prop :=
  insert_form newWriter k
  /\ first_name <> "" /\ last_name <> ""
  /\ matches_layout visit_date = true
  /\ default false (publicHolidays s !! visit_date) = false.

Definition settled (w : ResponseWriter) : Prop :=
  match booking w with
  | Some _ => Code w = Some StatusCreated
  | None => Code w <> Some StatusCreated
  end.

Definition thread_inv (s : Server) (h : Handler ResponseWriter) : Prop :=
  match h with
  | Ret w => settled w
  | QueryCount _ k =>
      forall ans,
        match k ans with
        | Ret w => booking w = None /\ Code w <> Some StatusCreated
        | QueryCount _ _ => False
        | QueryInsert fn ln d k' => insert_ok s fn ln d k'
        end
  | QueryInsert fn ln d k' => insert_ok s fn ln d k'
  end.

(** Handler [i] has answered 201 with appointment [a]. *)
Definition confirmed (sys : System) (i : nat) (a : Store.Appointment) : Prop :=
  exists w, sys_threads sys !! i = Some (Ret w) /\ booking w = Some a.

Record server_inv (s : Server) (sys : System) : Prop := mkServerInv {
  inv_threads : Forall (thread_inv s) (sys_threads sys);
  inv_rows : Forall (well_formed_row s) (Store.rows (sys_db sys));
  inv_ids : ids_ascending (sys_db sys);
  inv_one : at_most_one (sys_db sys);
  inv_confirmed_row :
    forall i a, confirmed sys i a -> In a (Store.rows (sys_db sys));
  inv_confirmed_id :
    forall i j a b, confirmed sys i a -> confirmed sys j b ->
                    Store.ID a = Store.ID b -> i = j
}.

(** Two bookings on two dates, one after the other. *)
Definition two_bookings : list Action :=
  [Arrive (mkTime 2025 10 31 0) (post "Dana" "Valid" "2075-06-15");
   Fire 0 ok; Fire 0 ok;
   Arrive (mkTime 2025 10 31 0) (post "Eve" "Late" "2075-06-16");
   Fire 1 ok; Fire 1 ok].

(** A holiday source that answers every URL with Christmas Day 2075. *)
Definition christmas : Nager.PublicHoliday :=
  Nager.mkPublicHoliday "2075-12-25" "Christmas Day" "Christmas Day" "GB"
    true true [] 0 ["Public"].

Definition getChristmas (url : string) : GetResult :=
  GetResponse 200 (Some [christmas]).

(** The writer as the middleware hands it to the next handler. *)
Definition corsWriter : ResponseWriter :=
  SetHeader
    (SetHeader (SetHeader newWriter "Access-Control-Allow-Origin" "*")
       "Access-Control-Allow-Methods" "POST, OPTIONS")
    "Access-Control-Allow-Headers" "Content-Type".

(* ===================================================================== *)
(** ** The library functions on examples *)
(* ===================================================================== *)

Example Atoi_2075 : Atoi "2075" = Some 2075.
Proof. reflexivity. Qed.

Example Atoi_empty : Atoi "" = None.
Proof. reflexivity. Qed.

Example Atoi_sign_only : Atoi "+" = None.
Proof. reflexivity. Qed.

Example Parse_ok : Parse "2075-06-15" = Some (mkTime 2075 6 15 0).
Proof. reflexivity. Qed.

Example Parse_slashes : Parse "2075/06/15" = None.
Proof. reflexivity. Qed.

Example Parse_short_year : Parse "75-06-15" = None.
Proof. reflexivity. Qed.

Example Parse_month_13 : Parse "2075-13-01" = None.
Proof. reflexivity. Qed.

Example Parse_no_leading_zero : Parse "2075-6-15" = None.
Proof. reflexivity. Qed.

Example Parse_feb_29 : Parse "2075-02-29" = None /\ Parse "2076-02-29" = Some (mkTime 2076 2 29 0).
Proof. split; reflexivity. Qed.

Example Parse_extra_text : Parse "2075-06-15T00:00:00Z" = None.
Proof. reflexivity. Qed.

Example Format_ok : Format (mkTime 2075 6 15 0) = "2075-06-15".
Proof. reflexivity. Qed.

Example Date_feb_29 : Date 2075 2 29 = mkTime 2075 3 1 0.
Proof. reflexivity. Qed.

(* ===================================================================== *)
(** ** Facts about the library functions *)
(* ===================================================================== *)

Section Digits.

Lemma digit_val_range c : is_digit c = true -> 0 <= digit_val c <= 9.
Proof.
  unfold is_digit, digit_val. intros H.
  apply andb_true_iff in H as [H1 H2]. lia.
Qed.

Lemma digit_char_val c : is_digit c = true -> digit_char (digit_val c) = c.
Proof.
  intros H. unfold digit_char, digit_val, byte_val.
  replace (48 + (Z.of_N (N_of_ascii c) - 48)) with (Z.of_N (N_of_ascii c)) by lia.
  rewrite N2Z.id. apply ascii_N_embedding.
Qed.

Lemma digit_val_char d : 0 <= d <= 9 -> digit_val (digit_char d) = d.
Proof.
  intros H. unfold digit_char, digit_val, byte_val.
  rewrite N_ascii_embedding by lia. lia.
Qed.

Lemma is_digit_char d : 0 <= d <= 9 -> is_digit (digit_char d) = true.
Proof.
  intros H. pose proof (digit_val_char d H) as Hv.
  unfold is_digit. unfold digit_val in Hv.
  apply andb_true_iff. lia.
Qed.

Lemma digit_not_sign c :
  is_digit c = true -> Ascii.eqb c "-" = false /\ Ascii.eqb c "+" = false.
Proof.
  intros H. split.
  - destruct (Ascii.eqb_spec c "-") as [->|]; [discriminate H | reflexivity].
  - destruct (Ascii.eqb_spec c "+") as [->|]; [discriminate H | reflexivity].
Qed.

End Digits.

Section ParseFacts.

Lemma leadingInt_digit c r x :
  is_digit c = true -> 0 <= x <= 99999 ->
  leadingInt (String c r) x = leadingInt r (x * 10 + digit_val c).
Proof.
  intros Hc Hx. pose proof (digit_val_range c Hc) as Hd.
  cbn [leadingInt]. rewrite Hc. cbn [negb].
  assert (H63 : 2 ^ 63 = 9223372036854775808) by reflexivity.
  rewrite H63.
  destruct (Z.ltb_spec (9223372036854775808 / 10) x) as [Hlt|_].
  - exfalso. change (9223372036854775808 / 10) with 922337203685477580 in Hlt. lia.
  - cbv zeta.
    destruct (Z.ltb_spec 9223372036854775808 (x * 10 + digit_val c)); [lia | reflexivity].
Qed.

Lemma leadingInt_stop c r x :
  is_digit c = false -> leadingInt (String c r) x = Some (x, String c r).
Proof. intros Hc. cbn [leadingInt]. now rewrite Hc. Qed.

Lemma atoi_digit_first c r :
  is_digit c = true -> atoi (String c r) =
    match leadingInt (String c r) 0 with
    | Some (q, EmptyString) => Some q
    | _ => None
    end.
Proof.
  intros Hc. destruct (digit_not_sign c Hc) as [Hm Hp].
  unfold atoi, cut_sign. now rewrite Hm, Hp.
Qed.

(** The year chunk: four characters, the first a digit, read by [atoi]. *)
Lemma atoi_year y0 y1 y2 y3 year :
  is_digit y0 = true ->
  atoi (String y0 (String y1 (String y2 (String y3 "")))) = Some year ->
  is_digit y1 = true /\ is_digit y2 = true /\ is_digit y3 = true
  /\ year = 1000 * digit_val y0 + 100 * digit_val y1
            + 10 * digit_val y2 + digit_val y3.
Proof.
  intros H0 Hat. rewrite atoi_digit_first in Hat by assumption.
  pose proof (digit_val_range y0 H0) as R0.
  rewrite leadingInt_digit in Hat by (assumption || lia).
  destruct (is_digit y1) eqn:H1;
    [| rewrite leadingInt_stop in Hat by assumption; discriminate].
  pose proof (digit_val_range y1 H1) as R1.
  rewrite leadingInt_digit in Hat by (assumption || lia).
  destruct (is_digit y2) eqn:H2;
    [| rewrite leadingInt_stop in Hat by assumption; discriminate].
  pose proof (digit_val_range y2 H2) as R2.
  rewrite leadingInt_digit in Hat by (assumption || lia).
  destruct (is_digit y3) eqn:H3;
    [| rewrite leadingInt_stop in Hat by assumption; discriminate].
  pose proof (digit_val_range y3 H3) as R3.
  rewrite leadingInt_digit in Hat by (assumption || lia).
  cbn [leadingInt] in Hat. injection Hat as <-.
  repeat split; lia.
Qed.

Lemma atoi_year_digits y0 y1 y2 y3 :
  is_digit y0 = true -> is_digit y1 = true ->
  is_digit y2 = true -> is_digit y3 = true ->
  atoi (String y0 (String y1 (String y2 (String y3 "")))) =
    Some (1000 * digit_val y0 + 100 * digit_val y1
          + 10 * digit_val y2 + digit_val y3).
Proof.
  intros H0 H1 H2 H3. rewrite atoi_digit_first by assumption.
  pose proof (digit_val_range y0 H0). pose proof (digit_val_range y1 H1).
  pose proof (digit_val_range y2 H2). pose proof (digit_val_range y3 H3).
  rewrite !leadingInt_digit by (assumption || lia).
  cbn [leadingInt]. f_equal. lia.
Qed.

Lemma skip_dash value rest :
  skip value "-" = Some rest <-> value = String "-" rest.
Proof.
  split.
  - destruct value as [|c r]; cbn [skip]; [discriminate |].
    destruct (Ascii.eqb_spec c "-") as [->|]; [| discriminate].
    cbn [skip]. now intros [= ->].
  - intros ->. reflexivity.
Qed.

Lemma getnum_fixed s n rest :
  getnum s true = Some (n, rest) <->
  exists c0 c1, s = String c0 (String c1 rest)
    /\ is_digit c0 = true /\ is_digit c1 = true
    /\ n = digit_val c0 * 10 + digit_val c1.
Proof.
  unfold getnum, isDigit, at0. split.
  - destruct s as [|c0 [|c1 r]]; simpl; try discriminate.
    + destruct (is_digit c0); discriminate.
    + destruct (is_digit c0) eqn:H0; [| discriminate].
      destruct (is_digit c1) eqn:H1; [| discriminate].
      simpl. intros [= <- <-]. now exists c0, c1.
  - intros (c0 & c1 & -> & H0 & H1 & ->).
    simpl. now rewrite H0, H1.
Qed.

End ParseFacts.

Section ParseLayout.

Lemma Parse_year_chunk y0 y1 y2 y3 rest :
  Parse (String y0 (String y1 (String y2 (String y3 rest)))) =
  if negb (is_digit y0) then None
  else
    match atoi (String y0 (String y1 (String y2 (String y3 "")))) with
    | None => None
    | Some year =>
        match skip rest "-" with
        | None => None
        | Some value =>
            match getnum value true with
            | None => None
            | Some (month, value) =>
                if (month <=? 0) || (12 <? month) then None
                else
                  match skip value "-" with
                  | None => None
                  | Some value =>
                      match getnum value true with
                      | None => None
                      | Some (day, value) =>
                          if negb (is_empty value) then None
                          else if (day <? 1) || (daysIn month year <? day)
                               then None
                               else Some (mkTime year month day 0)
                      end
                  end
            end
        end
    end.
Proof. reflexivity. Qed.

Lemma Parse_short s : (String.length s < 4)%nat -> Parse s = None.
Proof.
  intros H. unfold Parse.
  destruct (Nat.ltb_spec (String.length s) 4); [reflexivity | lia].
Qed.

(** A successful parse fixes every character of the input. *)
Lemma Parse_inv s t :
  Parse s = Some t ->
  exists y0 y1 y2 y3 m0 m1 d0 d1,
    s = String y0 (String y1 (String y2 (String y3 (String "-"
          (String m0 (String m1 (String "-" (String d0 (String d1
            EmptyString)))))))))
    /\ is_digit y0 = true /\ is_digit y1 = true /\ is_digit y2 = true
    /\ is_digit y3 = true /\ is_digit m0 = true /\ is_digit m1 = true
    /\ is_digit d0 = true /\ is_digit d1 = true
    /\ t = mkTime (1000 * digit_val y0 + 100 * digit_val y1
                   + 10 * digit_val y2 + digit_val y3)
                  (10 * digit_val m0 + digit_val m1)
                  (10 * digit_val d0 + digit_val d1) 0
    /\ 1 <= t_month t <= 12
    /\ 1 <= t_day t <= daysIn (t_month t) (t_year t).
Proof.
  intros HP.
  destruct s as [|y0 [|y1 [|y2 [|y3 rest]]]];
    try (rewrite Parse_short in HP by (simpl; lia); discriminate).
  rewrite Parse_year_chunk in HP.
  destruct (is_digit y0) eqn:H0; [cbn [negb] in HP | discriminate].
  destruct (atoi _) as [year|] eqn:Hy; [| discriminate].
  apply atoi_year in Hy as (H1 & H2 & H3 & ->); [| assumption].
  destruct (skip rest "-") as [v1|] eqn:Hs1; [| discriminate].
  apply skip_dash in Hs1 as ->.
  destruct (getnum v1 true) as [[month v2]|] eqn:Hm; [| discriminate].
  apply getnum_fixed in Hm as (m0 & m1 & -> & Hm0 & Hm1 & ->).
  destruct (Z.leb_spec (digit_val m0 * 10 + digit_val m1) 0); [discriminate |].
  destruct (Z.ltb_spec 12 (digit_val m0 * 10 + digit_val m1)); [discriminate |].
  cbn [orb] in HP.
  destruct (skip v2 "-") as [v3|] eqn:Hs2; [| discriminate].
  apply skip_dash in Hs2 as ->.
  destruct (getnum v3 true) as [[day v4]|] eqn:Hd; [| discriminate].
  apply getnum_fixed in Hd as (d0 & d1 & -> & Hd0 & Hd1 & ->).
  destruct v4; [cbn [is_empty negb] in HP | discriminate].
  destruct (Z.ltb_spec (digit_val d0 * 10 + digit_val d1) 1); [discriminate |].
  cbn [orb] in HP.
  match type of HP with
  | (if ?b then _ else _) = _ => destruct (Z.ltb_spec (daysIn (digit_val m0 * 10 + digit_val m1)
       (1000 * digit_val y0 + 100 * digit_val y1 + 10 * digit_val y2 + digit_val y3))
       (digit_val d0 * 10 + digit_val d1)); [discriminate |]
  end.
  injection HP as <-.
  exists y0, y1, y2, y3, m0, m1, d0, d1.
  replace (10 * digit_val m0 + digit_val m1)
    with (digit_val m0 * 10 + digit_val m1) by lia.
  replace (10 * digit_val d0 + digit_val d1)
    with (digit_val d0 * 10 + digit_val d1) by lia.
  cbn [t_year t_month t_day]. repeat split; try assumption; lia.
Qed.

Lemma Parse_layout s : matches_layout s = false -> Parse s = None.
Proof.
  intros Hl. destruct (Parse s) as [t|] eqn:HP; [exfalso | reflexivity].
  apply Parse_inv in HP
    as (y0 & y1 & y2 & y3 & m0 & m1 & d0 & d1 & -> & H0 & H1 & H2 & H3
        & Hm0 & Hm1 & Hd0 & Hd1 & -> & Hm & Hd).
  cbn [t_year t_month t_day] in Hm, Hd.
  cbn [matches_layout] in Hl.
  rewrite H0, H1, H2, H3, Hm0, Hm1, Hd0, Hd1 in Hl.
  change (Ascii.eqb "-" "-") with true in Hl. cbn [andb] in Hl.
  repeat (apply andb_false_iff in Hl as [Hl|Hl]); lia.
Qed.

Lemma numDigits_bound fuel : forall (k : nat) u,
  0 <= u < 10 ^ Z.of_nat k -> (numDigits fuel u <= k)%nat.
Proof.
  induction fuel as [|fuel IH]; intros k u Hu; cbn [numDigits]; [lia |].
  destruct (Z.leb_spec u 0); [lia |].
  destruct k as [|k]; [cbn in Hu; lia |].
  apply le_n_S, IH.
  rewrite Nat2Z.inj_succ, Z.pow_succ_r in Hu by lia.
  split; [apply Z.div_pos; lia | apply Z.div_lt_upper_bound; lia].
Qed.

Lemma appendInt_padded x (width : nat) :
  0 <= x < 10 ^ Z.of_nat width ->
  appendInt x width = lowDigits width x "".
Proof.
  intros Hx. unfold appendInt.
  destruct (Z.ltb_spec x 0); [lia |].
  rewrite Z.abs_eq by lia.
  pose proof (numDigits_bound 20 width x Hx).
  now rewrite Nat.max_l by lia.
Qed.

Lemma appendInt_2 a b :
  0 <= a <= 9 -> 0 <= b <= 9 ->
  appendInt (10 * a + b) 2 = String (digit_char a) (String (digit_char b) "").
Proof.
  intros Ha Hb. rewrite appendInt_padded by (cbn; lia).
  cbn [lowDigits].
  replace ((10 * a + b) mod 10) with b by (apply (Z.mod_unique _ _ a); lia).
  replace ((10 * a + b) / 10) with a by (apply (Z.div_unique _ _ _ b); lia).
  now rewrite Z.mod_small by lia.
Qed.

Lemma appendInt_4 a b c d :
  0 <= a <= 9 -> 0 <= b <= 9 -> 0 <= c <= 9 -> 0 <= d <= 9 ->
  appendInt (1000 * a + 100 * b + 10 * c + d) 4 =
  String (digit_char a) (String (digit_char b)
    (String (digit_char c) (String (digit_char d) ""))).
Proof.
  intros Ha Hb Hc Hd. rewrite appendInt_padded by (cbn; lia).
  cbn [lowDigits].
  replace ((1000 * a + 100 * b + 10 * c + d) mod 10) with d
    by (apply (Z.mod_unique _ _ (100 * a + 10 * b + c)); lia).
  replace ((1000 * a + 100 * b + 10 * c + d) / 10) with (100 * a + 10 * b + c)
    by (apply (Z.div_unique _ _ _ d); lia).
  replace ((100 * a + 10 * b + c) mod 10) with c
    by (apply (Z.mod_unique _ _ (10 * a + b)); lia).
  replace ((100 * a + 10 * b + c) / 10) with (10 * a + b)
    by (apply (Z.div_unique _ _ _ c); lia).
  replace ((10 * a + b) mod 10) with b
    by (apply (Z.mod_unique _ _ a); lia).
  replace ((10 * a + b) / 10) with a by (apply (Z.div_unique _ _ _ b); lia).
  now rewrite Z.mod_small by lia.
Qed.

(** Round trip: formatting a parsed date gives the input back. *)
Lemma Format_Parse s t : Parse s = Some t -> Format t = s.
Proof.
  intros HP.
  apply Parse_inv in HP
    as (y0 & y1 & y2 & y3 & m0 & m1 & d0 & d1 & -> & H0 & H1 & H2 & H3
        & Hm0 & Hm1 & Hd0 & Hd1 & -> & _ & _).
  unfold Format. cbn [t_year t_month t_day].
  rewrite appendInt_4, !appendInt_2 by (apply digit_val_range; assumption).
  rewrite !digit_char_val by assumption. reflexivity.
Qed.

Lemma layout_Parse s :
  matches_layout s = true -> exists t, Parse s = Some t.
Proof.
  intros Hl.
  destruct s as [|y0 [|y1 [|y2 [|y3 [|s1 [|m0 [|m1 [|s2 [|d0 [|d1 [|? ?]]]]]]]]]]];
    try discriminate Hl.
  cbn [matches_layout] in Hl.
  do 13 (apply andb_true_iff in Hl as [Hl ?]).
  destruct (Ascii.eqb_spec s1 "-") as [->|]; [| discriminate].
  destruct (Ascii.eqb_spec s2 "-") as [->|]; [| discriminate].
  rewrite Parse_year_chunk, Hl. cbn [negb].
  rewrite atoi_year_digits by assumption.
  cbn [skip Ascii.eqb Bool.eqb].
  assert (Hm : getnum (String m0 (String m1 (String "-" (String d0 (String d1 ""))))) true
               = Some (digit_val m0 * 10 + digit_val m1,
                       String "-" (String d0 (String d1 ""))))
    by (apply getnum_fixed; eauto 10).
  rewrite Hm.
  destruct (Z.leb_spec (digit_val m0 * 10 + digit_val m1) 0); [lia |].
  destruct (Z.ltb_spec 12 (digit_val m0 * 10 + digit_val m1)); [lia |].
  cbn [orb skip Ascii.eqb Bool.eqb].
  assert (Hd : getnum (String d0 (String d1 "")) true
               = Some (digit_val d0 * 10 + digit_val d1, ""))
    by (apply getnum_fixed; eauto 10).
  rewrite Hd. cbn [is_empty negb].
  destruct (Z.ltb_spec (digit_val d0 * 10 + digit_val d1) 1); [lia |].
  cbn [orb].
  replace (10 * digit_val m0 + digit_val m1)
    with (digit_val m0 * 10 + digit_val m1) in * by lia.
  replace (10 * digit_val d0 + digit_val d1)
    with (digit_val d0 * 10 + digit_val d1) in * by lia.
  match goal with
  | |- context [Z.ltb ?a ?b] => destruct (Z.ltb_spec a b); [lia |]
  end.
  eauto.
Qed.

End ParseLayout.

Section Calendar.

Lemma daysIn_range m year : 1 <= m <= 12 -> 28 <= daysIn m year <= 31.
Proof.
  intros Hm. unfold daysIn.
  destruct ((m =? 2) && isLeap year); [lia |].
  assert (Hc : m = 1 \/ m = 2 \/ m = 3 \/ m = 4 \/ m = 5 \/ m = 6 \/ m = 7
               \/ m = 8 \/ m = 9 \/ m = 10 \/ m = 11 \/ m = 12) by lia.
  repeat (destruct Hc as [-> | Hc]; [lia |]). subst m. lia.
Qed.

Lemma daysIn_december year : daysIn 12 year = 31.
Proof. reflexivity. Qed.

Lemma norm_day_short fuel year month day :
  1 <= month <= 12 -> day <= 28 ->
  norm_day fuel year month day = mkTime year month day 0.
Proof.
  intros Hm Hd. pose proof (daysIn_range month year Hm).
  destruct fuel as [|fuel]; cbn [norm_day]; [reflexivity |].
  destruct (Z.leb_spec day (daysIn month year)); [reflexivity | lia].
Qed.

(** The fake today built from the clock lies in the server's year: the
    only day that moves is February 29, which becomes March 1. *)
Lemma Date_year year month day :
  1 <= month <= 12 -> 1 <= day <= 31 -> t_year (Date year month day) = year.
Proof.
  intros Hm Hd. unfold Date.
  replace ((month - 1) / 12) with 0 by (symmetry; apply Z.div_small; lia).
  rewrite Z.mod_small, Z.add_0_r by lia.
  replace (month - 1 + 1) with month by lia.
  pose proof (daysIn_range month year Hm) as Hr.
  destruct (Z.to_nat day) as [|fuel] eqn:Hf; [lia |].
  cbn [norm_day].
  destruct (Z.leb_spec day (daysIn month year)); [reflexivity |].
  destruct (Z.eqb_spec month 12) as [->|Hne].
  - rewrite daysIn_december in *. lia.
  - rewrite norm_day_short by lia. reflexivity.
Qed.

Lemma Before_irrefl t : Before t t = false.
Proof.
  unfold Before. rewrite !Z.ltb_irrefl, !Z.eqb_refl. reflexivity.
Qed.

End Calendar.

(* ===================================================================== *)
(** ** The branches of createAppointment *)
(* ===================================================================== *)

Lemma is_empty_false s : s <> "" <-> is_empty s = false.
Proof. destruct s; cbn; split; congruence. Qed.

Section Branches.

Variables (s : Server) (now : Time) (w : ResponseWriter) (r : Request).
Variables (year : Z) (req : AppointmentRequest).

Hypothesis Hyear : Atoi (yearStr s) = Some year.
Hypothesis Hpost : Method r = "POST".
Hypothesis Hbody : Body r = Some req.

Let today := referenceToday s year now.

Ltac enter :=
  unfold createAppointment;
  rewrite Hyear, Hpost, Hbody, String.eqb_refl; cbn [negb].

Lemma branch_missing_fields :
  is_empty (FirstName req) || is_empty (LastName req)
  || is_empty (VisitDate req) = true ->
  createAppointment s now w r =
  Ret (sendErrorResponse w StatusBadRequest "missing_fields"
         "First name, last name, and visit date are required").
Proof. intros H. enter. now rewrite H. Qed.

Hypothesis Hfields :
  is_empty (FirstName req) || is_empty (LastName req)
  || is_empty (VisitDate req) = false.

Lemma branch_invalid_date :
  Parse (VisitDate req) = None ->
  createAppointment s now w r =
  Ret (sendErrorResponse w StatusBadRequest "invalid_date"
         "Visit date must be in YYYY-MM-DD format").
Proof. intros H. enter. now rewrite Hfields, H. Qed.

Variable visitDate : Time.
Hypothesis Hparse : Parse (VisitDate req) = Some visitDate.

Lemma branch_invalid_year :
  t_year visitDate <> t_year today ->
  createAppointment s now w r =
  Ret (sendErrorResponse w StatusBadRequest "invalid_year"
         "Appointments can only be scheduled for year 2075").
Proof.
  intros H. enter. rewrite Hfields, Hparse.
  fold today. apply Z.eqb_neq in H. now rewrite H.
Qed.

Hypothesis Hinyear : t_year visitDate = t_year today.

Lemma branch_past_date :
  Before visitDate today = true ->
  createAppointment s now w r =
  Ret (sendErrorResponse w StatusBadRequest "past_date"
         "Visit date cannot be in the past").
Proof.
  intros H. enter. rewrite Hfields, Hparse. fold today.
  apply Z.eqb_eq in Hinyear. now rewrite Hinyear, H.
Qed.

Hypothesis Hnotpast : Before visitDate today = false.

Lemma branch_public_holiday :
  isPublicHoliday s visitDate = true ->
  createAppointment s now w r =
  Ret (sendErrorResponse w StatusBadRequest "public_holiday"
         "Appointments cannot be scheduled on public holidays").
Proof.
  intros H. enter. rewrite Hfields, Hparse. fold today.
  apply Z.eqb_eq in Hinyear. now rewrite Hinyear, Hnotpast, H.
Qed.

Hypothesis Hworkday : isPublicHoliday s visitDate = false.

(** Past the five checks the handler sends the count query. *)
Lemma branch_lookup :
  lookup_form w req visitDate (createAppointment s now w r).
Proof.
  enter. rewrite Hfields, Hparse. fold today.
  apply Z.eqb_eq in Hinyear. rewrite Hinyear, Hnotpast, Hworkday.
  cbn [negb]. unfold mbind, Handler_bind, appointmentExists. cbn [bind].
  eexists. split; [reflexivity |]. split; [| split].
  - intros e. reflexivity.
  - intros count Hc. cbn [bind].
    destruct (Z.ltb_spec 0 count); [reflexivity | lia].
  - intros count Hc. cbn [bind].
    destruct (Z.ltb_spec 0 count); [lia |].
    eexists. split; [reflexivity |]. split; intros; reflexivity.
Qed.

End Branches.

Lemma createAppointment_cases s now w r :
  createAppointment s now w r = Ret w
  \/ (exists code reason msg,
        createAppointment s now w r = Ret (sendErrorResponse w code reason msg)
        /\ In reason ("method_not_allowed" :: "invalid_json" :: early_reasons))
  \/ (exists req visitDate,
        Body r = Some req /\ Parse (VisitDate req) = Some visitDate
        /\ lookup_form w req visitDate (createAppointment s now w r)).
Proof.
  destruct (Atoi (yearStr s)) as [year|] eqn:Hyear;
    [| left; unfold createAppointment; now rewrite Hyear].
  right.
  destruct (String.eqb_spec (Method r) "POST") as [Hpost|Hpost].
  2: { left. exists StatusMethodNotAllowed, "method_not_allowed",
         "Only POST method is allowed".
       split; [| cbn; tauto].
       unfold createAppointment. rewrite Hyear.
       apply String.eqb_neq in Hpost. now rewrite Hpost. }
  destruct (Body r) as [req|] eqn:Hbody.
  2: { left. exists StatusBadRequest, "invalid_json", "Invalid JSON format".
       split; [| cbn; tauto].
       unfold createAppointment.
       now rewrite Hyear, Hpost, Hbody, String.eqb_refl. }
  destruct (is_empty (FirstName req) || is_empty (LastName req)
            || is_empty (VisitDate req)) eqn:Hfields.
  { left. do 3 eexists. split;
      [eapply branch_missing_fields; eassumption | cbn; tauto]. }
  destruct (Parse (VisitDate req)) as [visitDate|] eqn:Hparse.
  2: { left. do 3 eexists. split;
         [eapply branch_invalid_date; eassumption | cbn; tauto]. }
  destruct (Z.eq_dec (t_year visitDate) (t_year (referenceToday s year now)))
    as [Hin|Hout].
  2: { left. do 3 eexists. split;
         [eapply branch_invalid_year; eassumption | cbn; tauto]. }
  destruct (Before visitDate (referenceToday s year now)) eqn:Hpast.
  { left. do 3 eexists. split;
      [eapply branch_past_date; eassumption | cbn; tauto]. }
  destruct (isPublicHoliday s visitDate) eqn:Hhol.
  { left. do 3 eexists. split;
      [eapply branch_public_holiday; eassumption | cbn; tauto]. }
  right. exists req, visitDate. split; [reflexivity |]. split; [assumption |].
  eapply branch_lookup; eassumption.
Qed.

(* ===================================================================== *)
(** ** The table *)
(* ===================================================================== *)

Section StoreFacts.

Lemma count_rows_nonneg l d : 0 <= Store.count_rows l d.
Proof.
  induction l as [|a l IH]; cbn [Store.count_rows]; [lia |].
  destruct (String.eqb _ _); lia.
Qed.

Lemma count_rows_app l l' d :
  Store.count_rows (l ++ l') d = Store.count_rows l d + Store.count_rows l' d.
Proof.
  induction l as [|a l IH]; cbn [Store.count_rows app]; [lia |].
  rewrite IH. lia.
Qed.

Lemma count_rows_In l d :
  0 < Store.count_rows l d <-> In d (map Store.VisitDate l).
Proof.
  induction l as [|a l IH]; cbn [Store.count_rows map In]; [lia |].
  pose proof (count_rows_nonneg l d).
  destruct (String.eqb_spec (Store.VisitDate a) d) as [Heq|Hne];
    split; intros H1.
  - now left.
  - lia.
  - right. apply IH. lia.
  - destruct H1 as [H1|H1]; [contradiction |]. apply IH in H1. lia.
Qed.

(** The insert either fails and leaves the table as it was, or appends
    one row whose date was not in the table. *)
Lemma insert_returning_cases o db fn ln d :
  (exists e, Store.insert_returning o db fn ln d = (inr e, db)
             /\ (Store.fault o = None -> e = Store.UniqueConstraintFailed
                 /\ 0 < Store.count_rows (Store.rows db) d))
  \/ (exists a,
        Store.insert_returning o db fn ln d =
          (inl a, Store.mkDB (Store.rows db ++ [a]) (Store.seq db + 1))
        /\ Store.VisitDate a = d /\ Store.FirstName a = fn
        /\ Store.LastName a = ln /\ Store.ID a = Store.seq db + 1
        /\ Store.fault o = None
        /\ Store.count_rows (Store.rows db) d = 0).
Proof.
  unfold Store.insert_returning.
  destruct (Store.fault o) as [e|] eqn:Hf.
  - left. exists e. split; [reflexivity | discriminate].
  - pose proof (count_rows_nonneg (Store.rows db) d).
    destruct (Z.ltb_spec 0 (Store.count_rows (Store.rows db) d)).
    + left. eexists. split; [reflexivity | tauto].
    + right. eexists. split; [reflexivity |]. cbn. repeat split; lia.
Qed.

Lemma insert_returning_present o db fn ln d :
  0 < Store.count_rows (Store.rows db) d ->
  exists e, Store.insert_returning o db fn ln d = (inr e, db).
Proof.
  intros Hc.
  destruct (insert_returning_cases o db fn ln d)
    as [(e & He & _) | (a & _ & _ & _ & _ & _ & _ & H0)]; [eauto | lia].
Qed.

Lemma extends_refl db : extends db db.
Proof. exists []. now rewrite app_nil_r. Qed.

Lemma extends_trans db1 db2 db3 :
  extends db1 db2 -> extends db2 db3 -> extends db1 db3.
Proof.
  intros [a1 H1] [a2 H2]. exists (a1 ++ a2)%list.
  now rewrite H2, H1, app_assoc.
Qed.

Lemma extends_count db db' d :
  extends db db' ->
  Store.count_rows (Store.rows db) d <= Store.count_rows (Store.rows db') d.
Proof.
  intros [added ->]. rewrite count_rows_app.
  pose proof (count_rows_nonneg added d). lia.
Qed.

Lemma insert_returning_extends o db fn ln d :
  extends db (snd (Store.insert_returning o db fn ln d)).
Proof.
  destruct (insert_returning_cases o db fn ln d)
    as [(e & -> & _) | (a & -> & _)]; cbn [snd].
  - apply extends_refl.
  - now exists [a].
Qed.

Lemma insert_returning_at_most_one o db fn ln d :
  at_most_one db -> at_most_one (snd (Store.insert_returning o db fn ln d)).
Proof.
  intros Hone.
  destruct (insert_returning_cases o db fn ln d)
    as [(e & -> & _) | (a & -> & Hd & _ & _ & _ & _ & H0)]; cbn [snd];
    [assumption |].
  intros d'. cbn [Store.rows]. rewrite count_rows_app.
  cbn [Store.count_rows]. rewrite Hd.
  destruct (String.eqb_spec d d') as [<-|_]; [lia |].
  specialize (Hone d'). lia.
Qed.

Lemma fire_db {A} o db (h : Handler A) :
  extends db (fst (fire o db h))
  /\ (at_most_one db -> at_most_one (fst (fire o db h))).
Proof.
  destruct h as [a|d k|fn ln d k]; cbn [fire fst];
    try (split; [apply extends_refl | tauto]).
  pose proof (insert_returning_extends o db fn ln d).
  pose proof (insert_returning_at_most_one o db fn ln d).
  destruct (Store.insert_returning o db fn ln d). cbn [fst snd] in *. tauto.
Qed.

End StoreFacts.

(* ===================================================================== *)
(** ** Handlers in flight *)
(* ===================================================================== *)

Section SystemFacts.

Variable s : Server.

Lemma createAppointment_in_flight now r :
  in_flight (createAppointment s now newWriter r).
Proof.
  destruct (createAppointment_cases s now newWriter r)
    as [-> | [(code & reason & msg & -> & _)
             | (req & visitDate & _ & _ & k & -> & Herr & Hdup & Hins)]];
    cbn [in_flight]; try exact I.
  intros [count|e].
  - destruct (Z.lt_ge_cases 0 count) as [Hc|Hc].
    + now rewrite Hdup.
    + destruct (Hins count) as (k' & -> & Hk'); [lia | exact Hk'].
  - now rewrite Herr.
Qed.

Lemma fire_in_flight o db h : in_flight h -> in_flight (snd (fire o db h)).
Proof.
  destruct h as [w|d k|fn ln d k]; cbn [fire snd in_flight].
  - trivial.
  - intros H. specialize (H (Store.select_count o db d)).
    destruct (k (Store.select_count o db d)); cbn [in_flight]; tauto.
  - intros [Herr Hok].
    destruct (Store.insert_returning o db fn ln d) as [[a|e] db'];
      cbn [snd]; [rewrite Hok | rewrite Herr]; exact I.
Qed.

Lemma act_step sys a :
  extends (sys_db sys) (sys_db (act s sys a))
  /\ (sys_inv sys -> sys_inv (act s sys a)).
Proof.
  destruct a as [now r|i o]; cbn [act].
  - cbn [sys_db]. split; [apply extends_refl |].
    intros [Hone Hfl]. split; [exact Hone |]. cbn [sys_threads].
    apply Forall_app. split; [exact Hfl |].
    constructor; [apply createAppointment_in_flight | constructor].
  - destruct (sys_threads sys !! i) as [h|] eqn:Hi;
      [| split; [apply extends_refl | tauto]].
    pose proof (fire_db o (sys_db sys) h) as [Hext Hone'].
    pose proof (fire_in_flight o (sys_db sys) h) as Hfl'.
    destruct (fire o (sys_db sys) h) as [db' h']. cbn [fst snd] in *.
    cbn [sys_db sys_threads]. split; [exact Hext |].
    intros [Hone Hfl]. split; [tauto |].
    apply Forall_insert; [exact Hfl |].
    apply Hfl'. eapply Forall_lookup_1; eassumption.
Qed.

Lemma exec_app sys acts acts' :
  exec s sys (acts ++ acts') = exec s (exec s sys acts) acts'.
Proof. unfold exec. apply fold_left_app. Qed.

Lemma exec_steps acts : forall sys,
  extends (sys_db sys) (sys_db (exec s sys acts))
  /\ (sys_inv sys -> sys_inv (exec s sys acts)).
Proof.
  induction acts as [|a acts IH]; intros sys; cbn [exec fold_left].
  - split; [apply extends_refl | tauto].
  - destruct (act_step sys a) as [He Hi].
    destruct (IH (act s sys a)) as [He' Hi']. fold (exec s (act s sys a) acts).
    split; [eapply extends_trans; eassumption | tauto].
Qed.

Lemma boot_inv : sys_inv boot.
Proof.
  split; [| constructor]. intros d. cbn. lia.
Qed.

End SystemFacts.

(* ===================================================================== *)
(** ** The store under concurrent requests *)
(* ===================================================================== *)

(** C8. In every state the server reaches from the empty table, whatever
    requests arrive and however their statements interleave, no visit
    date has more than one row; and no step removes or changes a row
    that is there: the table after the step starts with the rows it had
    before. *)
Theorem one_appointment_per_visit_date (s : Server) (acts : list Action) :
  at_most_one (sys_db (exec s boot acts))
  /\ forall a : Action,
       extends (sys_db (exec s boot acts))
               (sys_db (act s (exec s boot acts) a)).
Proof.
  split.
  - apply (exec_steps s acts boot), boot_inv.
  - intros a. apply act_step.
Qed.

(** C7. Once an insert for a date has succeeded, the existence check for
    that date answers true in every later state of the server: after any
    further arrivals and statements of any handlers the count query
    finds the row, so the check returns (true, nil); the only other
    answer it can give is the error of a lookup that itself failed,
    never "not there". *)
Theorem exists_after_insert (s : Server) (o : Store.Oracle) (db db1 : Store.DB)
    (first_name last_name : string) (visitDate : Time)
    (a : Store.Appointment) (threads : list (Handler ResponseWriter))
    (acts : list Action) (orc : nat -> Store.Oracle) (n : nat) :
  Store.insert_returning o db first_name last_name (Format visitDate)
    = (inl a, db1) ->
  fst (fst (run (appointmentExists visitDate) orc n
              (sys_db (exec s (mkSystem db1 threads) acts))))
  = match Store.fault (orc n) with
    | None => (true, None)
    | Some e => (false, Some e)
    end.
Proof.
  intros Hins.
  assert (Hin : 0 < Store.count_rows (Store.rows db1) (Format visitDate)).
  { destruct (insert_returning_cases o db first_name last_name (Format visitDate))
      as [(e & He & _) | (a' & Ha' & Hd & _)]; rewrite Hins in *;
      [discriminate |].
    injection Ha' as -> ->. cbn [Store.rows]. rewrite count_rows_app.
    cbn [Store.count_rows]. rewrite Hd, String.eqb_refl.
    pose proof (count_rows_nonneg (Store.rows db) (Format visitDate)). lia. }
  pose proof (proj1 (exec_steps s acts (mkSystem db1 threads))) as Hext.
  cbn [sys_db] in Hext.
  apply (extends_count _ _ (Format visitDate)) in Hext.
  unfold appointmentExists. cbn [run]. unfold Store.select_count.
  destruct (Store.fault (orc n)) as [e|]; cbn [run fst]; [reflexivity |].
  destruct (Z.ltb_spec 0 (Store.count_rows
              (Store.rows (sys_db (exec s (mkSystem db1 threads) acts)))
              (Format visitDate))); [reflexivity | lia].
Qed.

Lemma exists_after_insert_witness :
  Store.insert_returning ok Store.empty "Dana" "Valid"
      (Format (mkTime 2075 6 15 0))
    = (inl (Store.mkAppointment 1 "Dana" "Valid" "2075-06-15"
              (mkTime 2025 10 31 0)),
       Store.mkDB [Store.mkAppointment 1 "Dana" "Valid" "2075-06-15"
                     (mkTime 2025 10 31 0)] 1)
  /\ fst (fst (run (appointmentExists (mkTime 2075 6 15 0)) (fun _ => ok) 0%nat
                 (sys_db (exec testServer
                            (mkSystem
                               (Store.mkDB
                                  [Store.mkAppointment 1 "Dana" "Valid"
                                     "2075-06-15" (mkTime 2025 10 31 0)] 1)
                               [])
                            [Arrive (mkTime 2025 10 31 0)
                               (post "Eve" "Late" "2075-06-16");
                             Fire 0 ok; Fire 0 ok]))))
     = (true, None).
Proof.
  split; [reflexivity |].
  exact (exists_after_insert testServer ok Store.empty
           (Store.mkDB [Store.mkAppointment 1 "Dana" "Valid" "2075-06-15"
                          (mkTime 2025 10 31 0)] 1)
           "Dana" "Valid" (mkTime 2075 6 15 0)
           (Store.mkAppointment 1 "Dana" "Valid" "2075-06-15"
              (mkTime 2025 10 31 0))
           []
           [Arrive (mkTime 2025 10 31 0) (post "Eve" "Late" "2075-06-16");
            Fire 0 ok; Fire 0 ok]
           (fun _ => ok) 0%nat eq_refl).
Defined.

(** C1, as the code has it. In every state the server reaches, a handler
    about to insert on a date that is already in the table (the date was
    free at its pre-check and was taken since) reports the insert's
    failure, the uniqueness violation included, as 500 database_error
    "Failed to create appointment", and the table stays as it was. *)
Theorem insert_on_taken_date_is_database_error (s : Server)
    (acts : list Action) (i : nat) (first_name last_name visit_date : string)
    (k : Store.Appointment + Store.DbError -> Handler ResponseWriter)
    (o : Store.Oracle) :
  sys_threads (exec s boot acts) !! i
    = Some (QueryInsert first_name last_name visit_date k) ->
  0 < Store.count_rows (Store.rows (sys_db (exec s boot acts))) visit_date ->
  sys_db (act s (exec s boot acts) (Fire i o)) = sys_db (exec s boot acts)
  /\ exists w,
       sys_threads (act s (exec s boot acts) (Fire i o)) !! i = Some (Ret w)
       /\ client_view w
          = errorOf StatusInternalServerError "database_error"
              "Failed to create appointment".
Proof.
  intros Hi Htaken.
  pose proof (proj2 (exec_steps s acts boot) (boot_inv)) as [_ Hfl].
  pose proof (Forall_lookup_1 _ _ _ _ Hfl Hi) as [Herr _].
  cbn [act]. rewrite Hi. cbn [fire].
  destruct (insert_returning_present o (sys_db (exec s boot acts))
              first_name last_name visit_date Htaken) as [e ->].
  cbn [sys_db sys_threads]. split; [reflexivity |].
  eexists. split.
  - rewrite list_lookup_insert_eq by (eapply lookup_lt_Some; eassumption).
    rewrite Herr. reflexivity.
  - reflexivity.
Qed.

Lemma insert_on_taken_date_witness :
  (exists k,
     sys_threads (exec testServer boot race_before_second_insert) !! 1%nat
     = Some (QueryInsert "Eve" "Late" "2075-06-15" k))
  /\ 0 < Store.count_rows
           (Store.rows (sys_db (exec testServer boot race_before_second_insert)))
           "2075-06-15"
  /\ sys_db (act testServer (exec testServer boot race_before_second_insert)
               (Fire 1 ok))
     = sys_db (exec testServer boot race_before_second_insert)
  /\ exists w,
       sys_threads (act testServer
                      (exec testServer boot race_before_second_insert)
                      (Fire 1 ok)) !! 1%nat = Some (Ret w)
       /\ client_view w
          = errorOf StatusInternalServerError "database_error"
              "Failed to create appointment".
Proof.
  split; [eexists; vm_compute; reflexivity |].
  split; [reflexivity |].
  eapply (insert_on_taken_date_is_database_error testServer
            race_before_second_insert 1 "Eve" "Late" "2075-06-15").
  - vm_compute. reflexivity.
  - reflexivity.
Defined.

(** C1, as stated, fails: with two requests for the free date 2075-06-15
    both past their pre-check, the first insert succeeds with 201 and the
    second, refused by the UNIQUE constraint alone (no statement fails
    for another reason), is answered 500 database_error, not 409
    duplicate_appointment. *)
Lemma race_second_insert_gets_500 :
  0 < Store.count_rows
        (Store.rows (sys_db (exec testServer boot race_before_second_insert)))
        "2075-06-15"
  /\ fst (Store.insert_returning ok
            (sys_db (exec testServer boot race_before_second_insert))
            "Eve" "Late" "2075-06-15")
     = inr Store.UniqueConstraintFailed
  /\ exists w,
       sys_threads (exec testServer boot race) !! 1%nat = Some (Ret w)
       /\ client_view w
          = errorOf StatusInternalServerError "database_error"
              "Failed to create appointment"
       /\ client_view w
          <> errorOf StatusConflict "duplicate_appointment"
               "An appointment is already Scheduled for this date".
Proof.
  split; [reflexivity |]. split; [reflexivity |].
  eexists. split; [vm_compute; reflexivity |].
  split; [reflexivity | discriminate].
Qed.

(* ===================================================================== *)
(** ** The handler on one request *)
(* ===================================================================== *)

(** C10. When the server's year string is not an integer the handler
    returns at once for every request, whatever its method and body: it
    sends no statement, leaves the table alone, and has written neither
    a status code nor a body, so the client receives status 200 and an
    empty body. *)
Theorem unparsable_year_writes_nothing (s : Server) (now : Time) (r : Request)
    (orc : nat -> Store.Oracle) (n : nat) (db : Store.DB) :
  Atoi (yearStr s) = None ->
  run (createAppointment s now newWriter r) orc n db = (newWriter, db, [])
  /\ Code newWriter = None /\ Written newWriter = []
  /\ client_view newWriter = (200, []).
Proof.
  intros Hyear. unfold createAppointment. rewrite Hyear.
  repeat split.
Qed.

Lemma unparsable_year_witness :
  Atoi (yearStr NewServer) = None
  /\ run (createAppointment NewServer (mkTime 2025 10 31 0) newWriter
            (mkHttpRequest "GET" None))
       (fun _ => ok) 0%nat Store.empty
     = (newWriter, Store.empty, []).
Proof.
  split; [reflexivity |].
  apply (unparsable_year_writes_nothing NewServer (mkTime 2025 10 31 0)
           (mkHttpRequest "GET" None) (fun _ => ok) 0%nat Store.empty).
  reflexivity.
Defined.

Example unparsable_year_ignores_the_request :
  response (createAppointment (mkServer testHolidays "twenty75" None)
              (mkTime 2025 10 31 0) newWriter
              (post "Dana" "Valid" "2075-06-15")) Store.empty
  = (200, []).
Proof. reflexivity. Qed.

Section RunFacts.

Lemma fields_present req :
  FirstName req <> "" -> LastName req <> "" -> VisitDate req <> "" ->
  is_empty (FirstName req) || is_empty (LastName req)
  || is_empty (VisitDate req) = false.
Proof.
  intros H1 H2 H3. apply is_empty_false in H1, H2, H3.
  now rewrite H1, H2, H3.
Qed.

(** A handler past the five checks, run alone: the outcome by the
    answers of the two statements. *)
Lemma run_lookup w req visitDate h orc n db :
  lookup_form w req visitDate h ->
  run h orc n db =
  match Store.select_count (orc n) db (Format visitDate) with
  | inr _ =>
      (sendErrorResponse w StatusInternalServerError "database_error"
         "Failed checking existing appointments",
       db, [OpCount (Format visitDate)])
  | inl count =>
      if 0 <? count
      then (sendErrorResponse w StatusConflict "duplicate_appointment"
              "An appointment is already Scheduled for this date",
            db, [OpCount (Format visitDate)])
      else
        let '(ans, db1) :=
          Store.insert_returning (orc (S n)) db (FirstName req) (LastName req)
            (Format visitDate) in
        (match ans with
         | inr _ =>
             sendErrorResponse w StatusInternalServerError "database_error"
               "Failed to create appointment"
         | inl a => created w a
         end,
         db1,
         [OpCount (Format visitDate);
          OpInsert (FirstName req) (LastName req) (Format visitDate)])
  end.
Proof.
  intros (k & -> & Herr & Hdup & Hins). cbn [run].
  destruct (Store.select_count (orc n) db (Format visitDate)) as [count|e].
  - destruct (Z.ltb_spec 0 count) as [Hc|Hc].
    + now rewrite Hdup.
    + destruct (Hins count Hc) as (k' & -> & Herr' & Hok). cbn [run].
      destruct (Store.insert_returning _ _ _ _ _) as [[a|e] db1].
      * now rewrite Hok.
      * now rewrite Herr'.
  - now rewrite Herr.
Qed.

Lemma reason_of_error code reason msg :
  reason_of (sendErrorResponse newWriter code reason msg) = Some reason
  /\ Code (sendErrorResponse newWriter code reason msg) = Some code.
Proof. split; reflexivity. Qed.

Lemma reason_of_created a :
  reason_of (created newWriter a) = None
  /\ Code (created newWriter a) = Some StatusCreated.
Proof. split; reflexivity. Qed.

Lemma late_reasons_not_early :
  ~ In "database_error" early_reasons
  /\ ~ In "duplicate_appointment" early_reasons
  /\ ~ In "method_not_allowed" early_reasons
  /\ ~ In "invalid_json" early_reasons.
Proof.
  unfold early_reasons. cbn [In].
  repeat split; intros H; repeat (destruct H as [H|H]; [discriminate H |]);
    exact H.
Qed.

Lemma referenceToday_year s year now :
  valid_time now ->
  t_year (referenceToday s year now) = operating_year s year.
Proof.
  intros (Hm & Hd & _). unfold referenceToday, operating_year.
  destruct (todayOverride s); [reflexivity |].
  pose proof (daysIn_range (t_month now) (t_year now) Hm).
  apply Date_year; lia.
Qed.

End RunFacts.

(** C6. For every request that reaches the duplicate check, a lookup that
    fails is answered 500 database_error, and a lookup that succeeds and
    finds the date is answered 409 duplicate_appointment; neither touches
    the table. *)
Theorem lookup_failure_is_500_and_taken_is_409 (s : Server) (now : Time)
    (r : Request) (year : Z) (req : AppointmentRequest) (visitDate : Time)
    (orc : nat -> Store.Oracle) (n : nat) (db : Store.DB) :
  Atoi (yearStr s) = Some year ->
  Method r = "POST" ->
  Body r = Some req ->
  FirstName req <> "" -> LastName req <> "" -> VisitDate req <> "" ->
  Parse (VisitDate req) = Some visitDate ->
  t_year visitDate = t_year (referenceToday s year now) ->
  Before visitDate (referenceToday s year now) = false ->
  isPublicHoliday s visitDate = false ->
  (forall e, Store.fault (orc n) = Some e ->
     run (createAppointment s now newWriter r) orc n db
     = (sendErrorResponse newWriter StatusInternalServerError "database_error"
          "Failed checking existing appointments",
        db, [OpCount (Format visitDate)]))
  /\ (Store.fault (orc n) = None ->
      0 < Store.count_rows (Store.rows db) (Format visitDate) ->
      run (createAppointment s now newWriter r) orc n db
      = (sendErrorResponse newWriter StatusConflict "duplicate_appointment"
           "An appointment is already Scheduled for this date",
         db, [OpCount (Format visitDate)])).
Proof.
  intros Hyear Hpost Hbody H1 H2 H3 Hparse Hin Hpast Hhol.
  pose proof (branch_lookup s now newWriter r year req Hyear Hpost Hbody
                (fields_present req H1 H2 H3) visitDate Hparse Hin Hpast Hhol)
    as Hform.
  rewrite (run_lookup _ _ _ _ orc n db Hform).
  unfold Store.select_count. split.
  - intros e ->. reflexivity.
  - intros -> Hc. destruct (Z.ltb_spec 0 (Store.count_rows (Store.rows db)
                              (Format visitDate))); [reflexivity | lia].
Qed.

Lemma lookup_failure_vs_taken_witness :
  Atoi (yearStr testServer) = Some 2075
  /\ Parse "2075-06-15" = Some (mkTime 2075 6 15 0)
  /\ client_view (fst (fst
       (run (createAppointment testServer (mkTime 2025 10 31 0) newWriter
               (post "Dana" "Valid" "2075-06-15"))
          (fun _ => Store.mkOracle (Some Store.DriverFailure)
                      (mkTime 2025 10 31 0))
          0%nat Store.empty)))
     = errorOf 500 "database_error" "Failed checking existing appointments"
  /\ client_view (fst (fst
       (run (createAppointment testServer (mkTime 2025 10 31 0) newWriter
               (post "Dana" "Valid" "2075-06-15"))
          (fun _ => ok) 0%nat
          (Store.mkDB [Store.mkAppointment 1 "Eve" "Early" "2075-06-15"
                         (mkTime 2025 10 30 0)] 1))))
     = errorOf 409 "duplicate_appointment"
         "An appointment is already Scheduled for this date".
Proof.
  split; [reflexivity |]. split; [reflexivity |].
  split.
  - rewrite (proj1 (lookup_failure_is_500_and_taken_is_409 testServer
               (mkTime 2025 10 31 0) (post "Dana" "Valid" "2075-06-15") 2075
               (mkRequest "Dana" "Valid" "2075-06-15") (mkTime 2075 6 15 0)
               (fun _ => Store.mkOracle (Some Store.DriverFailure)
                           (mkTime 2025 10 31 0))
               0%nat Store.empty
               eq_refl eq_refl eq_refl
               ltac:(discriminate) ltac:(discriminate) ltac:(discriminate)
               eq_refl eq_refl eq_refl ltac:(vm_compute; reflexivity))
             Store.DriverFailure eq_refl).
    reflexivity.
  - rewrite (proj2 (lookup_failure_is_500_and_taken_is_409 testServer
               (mkTime 2025 10 31 0) (post "Dana" "Valid" "2075-06-15") 2075
               (mkRequest "Dana" "Valid" "2075-06-15") (mkTime 2075 6 15 0)
               (fun _ => ok) 0%nat
               (Store.mkDB [Store.mkAppointment 1 "Eve" "Early" "2075-06-15"
                              (mkTime 2025 10 30 0)] 1)
               eq_refl eq_refl eq_refl
               ltac:(discriminate) ltac:(discriminate) ltac:(discriminate)
               eq_refl eq_refl eq_refl ltac:(vm_compute; reflexivity))
             eq_refl ltac:(reflexivity)).
    reflexivity.
Defined.

(** C9. A request rejected by one of the first five checks sends no
    statement at all and leaves the table as it was; the first statement
    a handler ever sends is the count query of the duplicate check; and
    every request that is not answered 201 leaves the table as it was. *)
Theorem early_rejection_leaves_store_alone (s : Server) (now : Time)
    (r : Request) (orc : nat -> Store.Oracle) (n : nat) (db db' : Store.DB)
    (w : ResponseWriter) (ops : list DbOp) :
  run (createAppointment s now newWriter r) orc n db = (w, db', ops) ->
  ((exists reason, reason_of w = Some reason /\ In reason early_reasons) ->
   ops = [] /\ db' = db)
  /\ (ops = []
      \/ exists req visitDate rest,
           Body r = Some req /\ Parse (VisitDate req) = Some visitDate
           /\ ops = OpCount (Format visitDate) :: rest)
  /\ (Code w <> Some StatusCreated -> db' = db).
Proof.
  intros Hrun.
  destruct late_reasons_not_early as (NE1 & NE2 & NE3 & NE4).
  destruct (createAppointment_cases s now newWriter r)
    as [Hc | [(code & reason & msg & Hc & _)
             | (req & visitDate & Hbody & Hparse & Hform)]].
  - rewrite Hc in Hrun. cbn [run] in Hrun. injection Hrun as <- <- <-.
    repeat split; auto.
  - rewrite Hc in Hrun. cbn [run] in Hrun. injection Hrun as <- <- <-.
    repeat split; auto.
  - rewrite (run_lookup _ _ _ _ orc n db Hform) in Hrun.
    destruct (Store.select_count (orc n) db (Format visitDate)) as [count|e].
    + destruct (0 <? count).
      * injection Hrun as <- <- <-. split; [| split]; auto.
        -- intros (reason & Hr & Hin). injection Hr as <-. contradiction.
        -- right. now exists req, visitDate, [].
      * destruct (insert_returning_cases (orc (S n)) db (FirstName req)
                    (LastName req) (Format visitDate))
          as [(e & He & _) | (a & Ha & _)]; rewrite ?He, ?Ha in Hrun;
          injection Hrun as <- <- <-; (split; [| split]).
        -- intros (reason & Hr & Hin). injection Hr as <-. contradiction.
        -- right. now exists req, visitDate,
             [OpInsert (FirstName req) (LastName req) (Format visitDate)].
        -- reflexivity.
        -- intros (reason & Hr & _). discriminate Hr.
        -- right. now exists req, visitDate,
             [OpInsert (FirstName req) (LastName req) (Format visitDate)].
        -- intros Hcode. exfalso. apply Hcode. reflexivity.
    + injection Hrun as <- <- <-. split; [| split]; auto.
      * intros (reason & Hr & Hin). injection Hr as <-. contradiction.
      * right. now exists req, visitDate, [].
Qed.

Lemma early_rejection_witness :
  run (createAppointment testServer (mkTime 2025 10 31 0) newWriter
         (post "Charlie" "HolidayClash" "2075-12-25"))
      (fun _ => ok) 0%nat Store.empty
  = (sendErrorResponse newWriter StatusBadRequest "public_holiday"
       "Appointments cannot be scheduled on public holidays",
     Store.empty, [])
  /\ ([] : list DbOp) = [] /\ Store.empty = Store.empty.
Proof.
  split; [vm_compute; reflexivity |].
  apply (proj1 (early_rejection_leaves_store_alone testServer
                  (mkTime 2025 10 31 0)
                  (post "Charlie" "HolidayClash" "2075-12-25")
                  (fun _ => ok) 0%nat Store.empty Store.empty
                  (sendErrorResponse newWriter StatusBadRequest
                     "public_holiday"
                     "Appointments cannot be scheduled on public holidays")
                  [] ltac:(vm_compute; reflexivity))).
  exists "public_holiday". split; [reflexivity |].
  unfold early_reasons. cbn [In]. tauto.
Defined.

Section Answers.

(** What the client receives from an error response on a fresh writer:
    the status code and the one JSON error value. *)
Lemma client_view_error code reason msg :
  client_view (sendErrorResponse newWriter code reason msg)
  = errorOf code reason msg.
Proof. reflexivity. Qed.

Lemma client_view_created a :
  client_view (created newWriter a) = (StatusCreated, [JsonAppointment a]).
Proof. reflexivity. Qed.

End Answers.

(** C4. A request with both names present and a non-empty visit date that
    is not of the form four digits, dash, two digits, dash, two digits
    with a real month and day of that month, is answered 400
    invalid_date: the client receives status 400 and the one JSON error
    whose reason code is invalid_date, no statement is sent and the
    table is left as it was. *)
Theorem malformed_date_is_invalid_date (s : Server) (now : Time)
    (r : Request) (year : Z) (req : AppointmentRequest)
    (orc : nat -> Store.Oracle) (n : nat) (db : Store.DB) :
  Atoi (yearStr s) = Some year ->
  Method r = "POST" ->
  Body r = Some req ->
  FirstName req <> "" -> LastName req <> "" -> VisitDate req <> "" ->
  matches_layout (VisitDate req) = false ->
  client_view (fst (fst (run (createAppointment s now newWriter r) orc n db)))
  = errorOf StatusBadRequest "invalid_date"
      "Visit date must be in YYYY-MM-DD format"
  /\ reason_of (fst (fst (run (createAppointment s now newWriter r) orc n db)))
     = Some "invalid_date"
  /\ snd (fst (run (createAppointment s now newWriter r) orc n db)) = db
  /\ snd (run (createAppointment s now newWriter r) orc n db) = [].
Proof.
  intros Hyear Hpost Hbody H1 H2 H3 Hlayout.
  rewrite (branch_invalid_date s now newWriter r year req Hyear Hpost Hbody
             (fields_present req H1 H2 H3) (Parse_layout _ Hlayout)).
  cbn [run fst snd]. rewrite client_view_error.
  repeat split; reflexivity.
Qed.

Lemma malformed_date_witness :
  Atoi (yearStr testServer) = Some 2075
  /\ matches_layout "2075-6-15" = false
  /\ client_view (fst (fst (run
       (createAppointment testServer (mkTime 2025 10 31 0) newWriter
          (post "Eve" "BadDate" "2075-6-15"))
       (fun _ => ok) 0%nat Store.empty)))
     = (400, [JsonError (mkErrorResponse "invalid_date"
                           "Visit date must be in YYYY-MM-DD format")]).
Proof.
  split; [reflexivity |]. split; [reflexivity |].
  apply (proj1 (malformed_date_is_invalid_date testServer
                  (mkTime 2025 10 31 0) (post "Eve" "BadDate" "2075-6-15")
                  2075 (mkRequest "Eve" "BadDate" "2075-6-15")
                  (fun _ => ok) 0%nat Store.empty
                  eq_refl eq_refl eq_refl
                  ltac:(discriminate) ltac:(discriminate) ltac:(discriminate)
                  eq_refl)).
Defined.

(** C2. The response carries the reason code (and status) of the first
    check, in the order field presence, date parse, year bound, past-date
    bound, holiday exclusion, duplicate exclusion, that the request
    fails, whatever later checks it fails as well. For the duplicate
    exclusion this is the answer of a lookup that did not itself fail. *)
Theorem earliest_failing_check_is_reported (s : Server) (now : Time)
    (r : Request) (year : Z) (req : AppointmentRequest) (c : Check)
    (orc : nat -> Store.Oracle) (n : nat) (db : Store.DB) :
  Atoi (yearStr s) = Some year ->
  Method r = "POST" ->
  Body r = Some req ->
  first_failure s (referenceToday s year now) db req = Some c ->
  (c = DuplicateExclusion -> Store.fault (orc n) = None) ->
  reason_of (fst (fst (run (createAppointment s now newWriter r) orc n db)))
    = Some (reason_code c)
  /\ Code (fst (fst (run (createAppointment s now newWriter r) orc n db)))
     = Some (status_of c).
Proof.
  intros Hyear Hpost Hbody Hfirst Hfault.
  unfold first_failure, checks_in_order in Hfirst. cbn [find] in Hfirst.
  destruct (fails s _ db req FieldPresence) eqn:F1.
  { injection Hfirst as <-. cbn [fails] in F1.
    rewrite (branch_missing_fields s now newWriter r year req Hyear Hpost
               Hbody F1).
    split; reflexivity. }
  cbn [fails] in F1.
  destruct (fails s _ db req DateParse) eqn:F2; cbn [fails] in F2.
  { injection Hfirst as <-.
    destruct (Parse (VisitDate req)) eqn:Hparse; [discriminate |].
    rewrite (branch_invalid_date s now newWriter r year req Hyear Hpost
               Hbody F1 Hparse).
    split; reflexivity. }
  destruct (Parse (VisitDate req)) as [visitDate|] eqn:Hparse;
    [clear F2 | discriminate].
  unfold fails, on_parsed in Hfirst. rewrite Hparse in Hfirst.
  destruct (Z.eqb_spec (t_year visitDate) (t_year (referenceToday s year now)))
    as [Hin|Hout]; cbn [negb] in Hfirst.
  2: { injection Hfirst as <-.
       rewrite (branch_invalid_year s now newWriter r year req Hyear Hpost
                  Hbody F1 visitDate Hparse Hout).
       split; reflexivity. }
  destruct (Before visitDate (referenceToday s year now)) eqn:Hpast.
  { injection Hfirst as <-.
    rewrite (branch_past_date s now newWriter r year req Hyear Hpost
               Hbody F1 visitDate Hparse Hin Hpast).
    split; reflexivity. }
  destruct (default false (publicHolidays s !! Format visitDate)) eqn:Hhol.
  { injection Hfirst as <-.
    rewrite (branch_public_holiday s now newWriter r year req Hyear Hpost
               Hbody F1 visitDate Hparse Hin Hpast Hhol).
    split; reflexivity. }
  destruct (0 <? Store.count_rows (Store.rows db) (Format visitDate)) eqn:Hdup;
    [| discriminate].
  injection Hfirst as <-.
  rewrite (run_lookup _ _ _ _ orc n db
             (branch_lookup s now newWriter r year req Hyear Hpost Hbody F1
                visitDate Hparse Hin Hpast Hhol)).
  unfold Store.select_count. rewrite (Hfault eq_refl), Hdup.
  split; reflexivity.
Qed.

Lemma earliest_failing_check_witness :
  Atoi (yearStr testServer) = Some 2075
  /\ fails testServer (mkTime 2075 1 1 0) Store.empty
       (mkRequest "" "NoFirst" "2075/06/15") FieldPresence = true
  /\ fails testServer (mkTime 2075 1 1 0) Store.empty
       (mkRequest "" "NoFirst" "2075/06/15") DateParse = true
  /\ reason_of (fst (fst (run
       (createAppointment testServer (mkTime 2025 10 31 0) newWriter
          (post "" "NoFirst" "2075/06/15"))
       (fun _ => ok) 0%nat Store.empty)))
     = Some "missing_fields".
Proof.
  split; [reflexivity |]. split; [reflexivity |]. split; [reflexivity |].
  apply (proj1 (earliest_failing_check_is_reported testServer
                  (mkTime 2025 10 31 0) (post "" "NoFirst" "2075/06/15") 2075
                  (mkRequest "" "NoFirst" "2075/06/15") FieldPresence
                  (fun _ => ok) 0%nat Store.empty
                  eq_refl eq_refl eq_refl eq_refl (fun _ => eq_refl))).
Defined.

(** The two requests the claim names. *)
Example empty_name_and_bad_date_reports_missing_fields :
  response (createAppointment testServer (mkTime 2025 10 31 0) newWriter
              (post "" "NoFirst" "2075/06/15")) Store.empty
  = errorOf 400 "missing_fields"
      "First name, last name, and visit date are required".
Proof. reflexivity. Qed.

Example bad_date_on_wrong_year_reports_invalid_date :
  response (createAppointment testServer (mkTime 2025 10 31 0) newWriter
              (post "Alice" "OutOfYear" "2074/06/15")) Store.empty
  = errorOf 400 "invalid_date" "Visit date must be in YYYY-MM-DD format".
Proof. reflexivity. Qed.

(** C3, as the code has it. For a well-formed request whose parsed date
    lies in the year of the reference today (the server's year unless an
    override of another year is in effect): a date that is strictly
    before the reference today is answered 400 past_date, with no
    statement sent; and a date on the calendar day of a reference today
    that is at midnight (as it always is without an override) is never
    answered past_date: it is answered public_holiday when the day is a
    holiday, and otherwise the duplicate check is reached and, with the
    date free and no statement failing, the booking is answered 201. *)
Theorem past_date_is_strict (s : Server) (now : Time) (r : Request)
    (year : Z) (req : AppointmentRequest) (visitDate : Time)
    (orc : nat -> Store.Oracle) (n : nat) (db : Store.DB) :
  Atoi (yearStr s) = Some year ->
  Method r = "POST" ->
  Body r = Some req ->
  FirstName req <> "" -> LastName req <> "" -> VisitDate req <> "" ->
  Parse (VisitDate req) = Some visitDate ->
  t_year visitDate = t_year (referenceToday s year now) ->
  (Before visitDate (referenceToday s year now) = true ->
   client_view (fst (fst (run (createAppointment s now newWriter r) orc n db)))
   = errorOf StatusBadRequest "past_date" "Visit date cannot be in the past"
   /\ snd (fst (run (createAppointment s now newWriter r) orc n db)) = db
   /\ snd (run (createAppointment s now newWriter r) orc n db) = [])
  /\ (t_month visitDate = t_month (referenceToday s year now) ->
      t_day visitDate = t_day (referenceToday s year now) ->
      t_nsec (referenceToday s year now) = 0 ->
      reason_of (fst (fst (run (createAppointment s now newWriter r)
                             orc n db)))
      <> Some "past_date"
      /\ (isPublicHoliday s visitDate = true ->
          client_view (fst (fst (run (createAppointment s now newWriter r)
                                   orc n db)))
          = errorOf StatusBadRequest "public_holiday"
              "Appointments cannot be scheduled on public holidays")
      /\ (isPublicHoliday s visitDate = false ->
          exists rest,
            snd (run (createAppointment s now newWriter r) orc n db)
            = OpCount (VisitDate req) :: rest)
      /\ (isPublicHoliday s visitDate = false ->
          Store.fault (orc n) = None -> Store.fault (orc (S n)) = None ->
          Store.count_rows (Store.rows db) (VisitDate req) = 0 ->
          client_view (fst (fst (run (createAppointment s now newWriter r)
                                   orc n db)))
          = (StatusCreated,
             [JsonAppointment
                (Store.mkAppointment (Store.seq db + 1) (FirstName req)
                   (LastName req) (VisitDate req)
                   (Store.timestamp (orc (S n))))]))).
Proof.
  intros Hyear Hpost Hbody H1 H2 H3 Hparse Hin.
  pose proof (fields_present req H1 H2 H3) as Hfields.
  split.
  - intros Hpast.
    rewrite (branch_past_date s now newWriter r year req Hyear Hpost Hbody
               Hfields visitDate Hparse Hin Hpast).
    cbn [run fst snd]. rewrite client_view_error. repeat split; reflexivity.
  - intros Hm Hd Hns.
    assert (Hnsv : t_nsec visitDate = 0).
    { destruct (Parse_inv _ _ Hparse)
        as (y0 & y1 & y2 & y3 & m0 & m1 & d0 & d1 & _ & _ & _ & _ & _ & _ & _
            & _ & _ & Ht & _).
      rewrite Ht. reflexivity. }
    assert (Hpast : Before visitDate (referenceToday s year now) = false).
    { unfold Before. rewrite Hin, Hm, Hd, Hnsv, Hns.
      rewrite !Z.ltb_irrefl, !Z.eqb_refl. reflexivity. }
    pose proof (Format_Parse _ _ Hparse) as Hfmt.
    destruct (isPublicHoliday s visitDate) eqn:Hhol.
    + rewrite (branch_public_holiday s now newWriter r year req Hyear Hpost
                 Hbody Hfields visitDate Hparse Hin Hpast Hhol).
      cbn [run fst snd]. rewrite client_view_error.
      split; [discriminate |]. split; [reflexivity |].
      split; intros Hf; discriminate Hf.
    + rewrite (run_lookup _ _ _ _ orc n db
                 (branch_lookup s now newWriter r year req Hyear Hpost Hbody
                    Hfields visitDate Hparse Hin Hpast Hhol)).
      rewrite Hfmt. unfold Store.select_count, Store.insert_returning.
      split; [| split; [| split]].
      * destruct (Store.fault (orc n)); [cbn [fst]; discriminate |].
        destruct (0 <? _); [cbn [fst]; discriminate |].
        destruct (Store.fault (orc (S n))); cbn [fst]; discriminate.
      * intros Hf. discriminate Hf.
      * intros _.
        destruct (Store.fault (orc n)); [cbn [snd]; eauto |].
        destruct (0 <? _); [cbn [snd]; eauto |].
        destruct (Store.fault (orc (S n))); cbn [snd]; eauto.
      * intros _ Hf0 Hf1 H0. rewrite Hf0, Hf1, H0.
        change (0 <? 0) with false. cbn [fst].
        apply client_view_created.
Qed.

Lemma past_date_is_strict_witness :
  (Atoi (yearStr (serverPinnedTo (mkTime 2075 7 1 0))) = Some 2075
   /\ Parse "2075-06-15" = Some (mkTime 2075 6 15 0)
   /\ Before (mkTime 2075 6 15 0) (mkTime 2075 7 1 0) = true
   /\ client_view (fst (fst (run
        (createAppointment (serverPinnedTo (mkTime 2075 7 1 0))
           (mkTime 2025 10 31 0) newWriter
           (post "Bob" "TooEarly" "2075-06-15"))
        (fun _ => ok) 0%nat Store.empty)))
      = (400, [JsonError (mkErrorResponse "past_date"
                            "Visit date cannot be in the past")]))
  /\ (Atoi (yearStr (serverPinnedTo (mkTime 2075 6 15 0))) = Some 2075
      /\ t_nsec (referenceToday (serverPinnedTo (mkTime 2075 6 15 0)) 2075
                   (mkTime 2025 10 31 0)) = 0
      /\ client_view (fst (fst (run
           (createAppointment (serverPinnedTo (mkTime 2075 6 15 0))
              (mkTime 2025 10 31 0) newWriter
              (post "Dana" "SameDay" "2075-06-15"))
           (fun _ => ok) 0%nat Store.empty)))
         = (201, [JsonAppointment
                    (Store.mkAppointment 1 "Dana" "SameDay" "2075-06-15"
                       (mkTime 2025 10 31 0))])).
Proof.
  split.
  - split; [reflexivity |]. split; [reflexivity |]. split; [reflexivity |].
    apply (proj1 (proj1 (past_date_is_strict
                    (serverPinnedTo (mkTime 2075 7 1 0))
                    (mkTime 2025 10 31 0) (post "Bob" "TooEarly" "2075-06-15")
                    2075 (mkRequest "Bob" "TooEarly" "2075-06-15")
                    (mkTime 2075 6 15 0) (fun _ => ok) 0%nat Store.empty
                    eq_refl eq_refl eq_refl
                    ltac:(discriminate) ltac:(discriminate)
                    ltac:(discriminate) eq_refl eq_refl) eq_refl)).
  - split; [reflexivity |]. split; [reflexivity |].
    apply (proj2 (proj2 (proj2 (proj2 (past_date_is_strict
                    (serverPinnedTo (mkTime 2075 6 15 0))
                    (mkTime 2025 10 31 0) (post "Dana" "SameDay" "2075-06-15")
                    2075 (mkRequest "Dana" "SameDay" "2075-06-15")
                    (mkTime 2075 6 15 0) (fun _ => ok) 0%nat Store.empty
                    eq_refl eq_refl eq_refl
                    ltac:(discriminate) ltac:(discriminate)
                    ltac:(discriminate) eq_refl eq_refl)
                  eq_refl eq_refl eq_refl))));
      vm_compute; reflexivity.
Defined.

(** C3, as stated, fails twice. With the server's year 2075 and today
    pinned to 2076-01-01, the date 2075-06-15 is in the server's year and
    strictly before today, and the client receives invalid_year, not
    past_date. With today pinned to noon of 2075-06-15, a visit on
    2075-06-15, the calendar day of today, is answered past_date. *)
Lemma in_year_before_today_is_invalid_year :
  (Atoi (yearStr (serverPinnedTo (mkTime 2076 1 1 0))) = Some 2075
   /\ Parse "2075-06-15" = Some (mkTime 2075 6 15 0)
   /\ t_year (mkTime 2075 6 15 0) = 2075
   /\ Before (mkTime 2075 6 15 0)
        (referenceToday (serverPinnedTo (mkTime 2076 1 1 0)) 2075
           (mkTime 2025 10 31 0)) = true
   /\ response (createAppointment (serverPinnedTo (mkTime 2076 1 1 0))
                  (mkTime 2025 10 31 0) newWriter
                  (post "Bob" "TooEarly" "2075-06-15")) Store.empty
      = (400, [JsonError (mkErrorResponse "invalid_year"
                            "Appointments can only be scheduled for year 2075")])
   /\ response (createAppointment (serverPinnedTo (mkTime 2076 1 1 0))
                  (mkTime 2025 10 31 0) newWriter
                  (post "Bob" "TooEarly" "2075-06-15")) Store.empty
      <> errorOf StatusBadRequest "past_date"
           "Visit date cannot be in the past")
  /\ (Parse "2075-06-15" = Some (mkTime 2075 6 15 0)
      /\ t_year (mkTime 2075 6 15 0)
         = t_year (mkTime 2075 6 15 43200000000000)
      /\ t_month (mkTime 2075 6 15 0)
         = t_month (mkTime 2075 6 15 43200000000000)
      /\ t_day (mkTime 2075 6 15 0) = t_day (mkTime 2075 6 15 43200000000000)
      /\ response (createAppointment
                     (serverPinnedTo (mkTime 2075 6 15 43200000000000))
                     (mkTime 2025 10 31 0) newWriter
                     (post "Dana" "SameDay" "2075-06-15")) Store.empty
         = (400, [JsonError (mkErrorResponse "past_date"
                               "Visit date cannot be in the past")])).
Proof.
  split.
  - repeat split; try reflexivity. discriminate.
  - repeat split; reflexivity.
Qed.

(** C5, as the code has it. The year bound compares the parsed year with
    the year of the reference today: the server's year (one that a
    [time.Time] can hold) when no override is in effect, the override's
    year otherwise. Whenever the parsed year differs from that year the
    client receives status 400 and the one JSON error whose reason code
    is invalid_year; no statement is sent and the table is left as it
    was. *)
Theorem year_bound_is_reference_today (s : Server) (now : Time)
    (r : Request) (year : Z) (req : AppointmentRequest) (visitDate : Time)
    (orc : nat -> Store.Oracle) (n : nat) (db : Store.DB) :
  Atoi (yearStr s) = Some year ->
  representable_year year ->
  valid_time now ->
  Method r = "POST" ->
  Body r = Some req ->
  FirstName req <> "" -> LastName req <> "" -> VisitDate req <> "" ->
  Parse (VisitDate req) = Some visitDate ->
  t_year visitDate <> operating_year s year ->
  client_view (fst (fst (run (createAppointment s now newWriter r) orc n db)))
  = errorOf StatusBadRequest "invalid_year"
      "Appointments can only be scheduled for year 2075"
  /\ reason_of (fst (fst (run (createAppointment s now newWriter r) orc n db)))
     = Some "invalid_year"
  /\ snd (fst (run (createAppointment s now newWriter r) orc n db)) = db
  /\ snd (run (createAppointment s now newWriter r) orc n db) = [].
Proof.
  intros Hyear _ Hnow Hpost Hbody H1 H2 H3 Hparse Hout.
  rewrite <- (referenceToday_year s year now Hnow) in Hout.
  rewrite (branch_invalid_year s now newWriter r year req Hyear Hpost Hbody
             (fields_present req H1 H2 H3) visitDate Hparse Hout).
  cbn [run fst snd]. rewrite client_view_error.
  repeat split; reflexivity.
Qed.

Lemma year_bound_witness :
  Atoi (yearStr (mkServer testHolidays "2075" None)) = Some 2075
  /\ representable_year 2075
  /\ valid_time (mkTime 2028 2 29 0)
  /\ Parse "2074-06-15" = Some (mkTime 2074 6 15 0)
  /\ client_view (fst (fst (run
       (createAppointment (mkServer testHolidays "2075" None)
          (mkTime 2028 2 29 0) newWriter
          (post "Alice" "OutOfYear" "2074-06-15"))
       (fun _ => ok) 0%nat Store.empty)))
     = (400, [JsonError (mkErrorResponse "invalid_year"
                           "Appointments can only be scheduled for year 2075")]).
Proof.
  split; [reflexivity |].
  split; [unfold representable_year; lia |].
  split; [repeat split; vm_compute; congruence |].
  split; [reflexivity |].
  apply (proj1 (year_bound_is_reference_today
                  (mkServer testHolidays "2075" None) (mkTime 2028 2 29 0)
                  (post "Alice" "OutOfYear" "2074-06-15") 2075
                  (mkRequest "Alice" "OutOfYear" "2074-06-15")
                  (mkTime 2074 6 15 0) (fun _ => ok) 0%nat Store.empty
                  eq_refl
                  ltac:(unfold representable_year; lia)
                  ltac:(repeat split; vm_compute; congruence)
                  eq_refl eq_refl
                  ltac:(discriminate) ltac:(discriminate) ltac:(discriminate)
                  eq_refl ltac:(discriminate))).
Defined.

(** C5, as stated, fails: with the server's year 2075 and today pinned to
    2074-01-01, the date 2074-06-15 has a year other than the server's
    and is booked with 201 instead of being answered invalid_year. *)
Lemma override_year_wins_over_server_year :
  Atoi (yearStr (serverPinnedTo (mkTime 2074 1 1 0))) = Some 2075
  /\ Parse "2074-06-15" = Some (mkTime 2074 6 15 0)
  /\ t_year (mkTime 2074 6 15 0) <> 2075
  /\ response (createAppointment (serverPinnedTo (mkTime 2074 1 1 0))
                 (mkTime 2025 10 31 0) newWriter
                 (post "Alice" "OutOfYear" "2074-06-15")) Store.empty
     = (201, [JsonAppointment
                (Store.mkAppointment 1 "Alice" "OutOfYear" "2074-06-15"
                   (mkTime 2025 10 31 0))]).
Proof. repeat split; try reflexivity. discriminate. Qed.

(* ===================================================================== *)
(** ** The tests of appointment_test.go *)
(* ===================================================================== *)

Section Tests.

Let clock := mkTime 2025 10 31 0.

Let serve (first last date : string) (db : Store.DB) : Z * list JsonValue :=
  response (createAppointment testServer clock newWriter (post first last date))
    db.

Example TestOutOfYearDate :
  fst (serve "Alice" "OutOfYear" "2074-06-15" Store.empty) = StatusBadRequest.
Proof. reflexivity. Qed.

Example TestEarlyYearDate :
  fst (serve "Bob" "TooEarly" "2075-01-01" Store.empty) = StatusBadRequest.
Proof. reflexivity. Qed.

Example TestPublicHolidayClash :
  fst (serve "Charlie" "HolidayClash" "2075-12-25" Store.empty)
  = StatusBadRequest.
Proof. reflexivity. Qed.

Example TestValidAppointment :
  fst (serve "Dana" "Valid" "2075-06-15" Store.empty) = StatusCreated.
Proof. reflexivity. Qed.

Example TestDuplicateAppointment :
  map (fun h => match h with
                | Ret w => fst (client_view w)
                | _ => 0
                end)
      (sys_threads
         (exec testServer boot
            [Arrive clock (post "Dana" "Valid" "2075-06-15");
             Fire 0 ok; Fire 0 ok;
             Arrive clock (post "Dana" "Valid" "2075-06-15");
             Fire 1 ok; Fire 1 ok]))
  = [StatusCreated; StatusConflict].
Proof. reflexivity. Qed.

Example TestInvalidDateFormat :
  fst (serve "Eve" "BadDate" "2075/06/15" Store.empty) = StatusBadRequest.
Proof. reflexivity. Qed.

Example TestMissingFirstName :
  fst (serve "" "NoFirst" "2075-06-15" Store.empty) = StatusBadRequest.
Proof. reflexivity. Qed.

Example TestMissingLastName :
  fst (serve "NoLast" "" "2075-06-15" Store.empty) = StatusBadRequest.
Proof. reflexivity. Qed.

End Tests.

(* ===================================================================== *)
(** ** One run of the handler, case by case *)
(* ===================================================================== *)

Section Dispatch.

Variables (s : Server) (now : Time) (r : Request).

(** The handler returns at once, rejects before any statement, or reaches
    the count query with every earlier check passed; which of the three
    does not depend on the writer. *)
Lemma createAppointment_dispatch :
  (Atoi (yearStr s) = None /\ forall w, createAppointment s now w r = Ret w)
  \/ (exists code reason msg,
        (code = StatusBadRequest \/ code = StatusMethodNotAllowed)
        /\ forall w, createAppointment s now w r
                     = Ret (sendErrorResponse w code reason msg))
  \/ (exists year req visitDate,
        Atoi (yearStr s) = Some year /\ Method r = "POST"
        /\ Body r = Some req
        /\ is_empty (FirstName req) || is_empty (LastName req)
           || is_empty (VisitDate req) = false
        /\ Parse (VisitDate req) = Some visitDate
        /\ t_year visitDate = t_year (referenceToday s year now)
        /\ Before visitDate (referenceToday s year now) = false
        /\ isPublicHoliday s visitDate = false
        /\ forall w, lookup_form w req visitDate (createAppointment s now w r)).
Proof.
  destruct (Atoi (yearStr s)) as [year|] eqn:Hyear;
    [| left; split; [reflexivity |];
       intros w; unfold createAppointment; now rewrite Hyear].
  right.
  destruct (String.eqb_spec (Method r) "POST") as [Hpost|Hpost].
  2: { left. exists StatusMethodNotAllowed, "method_not_allowed",
         "Only POST method is allowed".
       split; [now right |]. intros w.
       unfold createAppointment. rewrite Hyear.
       apply String.eqb_neq in Hpost. now rewrite Hpost. }
  destruct (Body r) as [req|] eqn:Hbody.
  2: { left. exists StatusBadRequest, "invalid_json", "Invalid JSON format".
       split; [now left |]. intros w.
       unfold createAppointment.
       now rewrite Hyear, Hpost, Hbody, String.eqb_refl. }
  destruct (is_empty (FirstName req) || is_empty (LastName req)
            || is_empty (VisitDate req)) eqn:Hfields.
  { left. do 3 eexists. split; [now left |]. intros w.
    eapply branch_missing_fields; eassumption. }
  destruct (Parse (VisitDate req)) as [visitDate|] eqn:Hparse.
  2: { left. do 3 eexists. split; [now left |]. intros w.
       eapply branch_invalid_date; eassumption. }
  destruct (Z.eq_dec (t_year visitDate) (t_year (referenceToday s year now)))
    as [Hin|Hout].
  2: { left. do 3 eexists. split; [now left |]. intros w.
       eapply branch_invalid_year; eassumption. }
  destruct (Before visitDate (referenceToday s year now)) eqn:Hpast.
  { left. do 3 eexists. split; [now left |]. intros w.
    eapply branch_past_date; eassumption. }
  destruct (isPublicHoliday s visitDate) eqn:Hhol.
  { left. do 3 eexists. split; [now left |]. intros w.
    eapply branch_public_holiday; eassumption. }
  right. exists year, req, visitDate. repeat (split; [assumption || reflexivity |]).
  intros w. eapply branch_lookup; eassumption.
Qed.

(** The outcome of a run, the same for every writer, with the table and
    the statements it leaves; a booking comes with everything that had to
    hold for it. *)
Lemma run_outcome (orc : nat -> Store.Oracle) (n : nat) (db : Store.DB) :
  exists o db' ops,
    (forall w, run (createAppointment s now w r) orc n db
               = (write_outcome w o, db', ops))
    /\ match o with
       | Silent => Atoi (yearStr s) = None /\ db' = db /\ ops = []
       | Rejected code _ _ =>
           In code [StatusBadRequest; StatusMethodNotAllowed; StatusConflict;
                    StatusInternalServerError]
           /\ db' = db
       | Booked a =>
           exists year req visitDate,
             Atoi (yearStr s) = Some year /\ Method r = "POST"
             /\ Body r = Some req
             /\ is_empty (FirstName req) || is_empty (LastName req)
                || is_empty (VisitDate req) = false
             /\ Parse (VisitDate req) = Some visitDate
             /\ t_year visitDate = t_year (referenceToday s year now)
             /\ Before visitDate (referenceToday s year now) = false
             /\ isPublicHoliday s visitDate = false
             /\ Store.count_rows (Store.rows db) (VisitDate req) = 0
             /\ Store.fault (orc n) = None /\ Store.fault (orc (S n)) = None
             /\ a = row_for req db (Store.timestamp (orc (S n)))
             /\ db' = Store.mkDB (Store.rows db ++ [a]) (Store.seq db + 1)
             /\ ops = [OpCount (VisitDate req);
                       OpInsert (FirstName req) (LastName req) (VisitDate req)]
       end.
Proof.
  destruct createAppointment_dispatch
    as [[Hyear Hc] | [(code & reason & msg & Hcode & Hc)
       | (year & req & visitDate & Hyear & Hpost & Hbody & Hfields & Hparse
          & Hin & Hpast & Hhol & Hform)]].
  - exists Silent, db, []. split; [| auto].
    intros w. now rewrite Hc.
  - exists (Rejected code reason msg), db, []. split.
    + intros w. now rewrite Hc.
    + split; [| reflexivity]. destruct Hcode as [-> | ->]; cbn [In]; tauto.
  - pose proof (Format_Parse _ _ Hparse) as Hfmt.
    destruct (Store.select_count (orc n) db (Format visitDate))
      as [count|e] eqn:Hsel.
    2: { eexists (Rejected _ _ _), db, _. split.
         - intros w. rewrite (run_lookup _ _ _ _ orc n db (Hform w)), Hsel.
           reflexivity.
         - split; [| reflexivity]. cbn [In]. tauto. }
    destruct (0 <? count) eqn:Hpos.
    { eexists (Rejected _ _ _), db, _. split.
      - intros w. rewrite (run_lookup _ _ _ _ orc n db (Hform w)), Hsel, Hpos.
        reflexivity.
      - split; [| reflexivity]. cbn [In]. tauto. }
    unfold Store.select_count in Hsel.
    destruct (Store.fault (orc n)) eqn:Hf0; [discriminate |].
    injection Hsel as <-. apply Z.ltb_ge in Hpos.
    pose proof (count_rows_nonneg (Store.rows db) (Format visitDate)).
    destruct (insert_returning_cases (orc (S n)) db (FirstName req)
                (LastName req) (Format visitDate))
      as [(e & He & _) | (a & Ha & Hd & Hfn & Hln & Hid & Hf1 & H0)].
    + eexists (Rejected _ _ _), db, _. split.
      * intros w. rewrite (run_lookup _ _ _ _ orc n db (Hform w)).
        unfold Store.select_count. rewrite Hf0.
        destruct (Z.ltb_spec 0 (Store.count_rows (Store.rows db)
                    (Format visitDate))); [lia |].
        rewrite He. reflexivity.
      * split; [| reflexivity]. cbn [In]. tauto.
    + exists (Booked a), (Store.mkDB (Store.rows db ++ [a]) (Store.seq db + 1)).
      eexists. split.
      * intros w. rewrite (run_lookup _ _ _ _ orc n db (Hform w)).
        unfold Store.select_count. rewrite Hf0.
        destruct (Z.ltb_spec 0 (Store.count_rows (Store.rows db)
                    (Format visitDate))); [lia |].
        rewrite Ha. reflexivity.
      * exists year, req, visitDate. rewrite Hfmt in *.
        repeat (split; [assumption || reflexivity |]).
        split; [| split; reflexivity].
        unfold Store.insert_returning in Ha. rewrite Hf1 in Ha.
        destruct (0 <? _) in Ha; [discriminate |].
        injection Ha as <-. unfold row_for. reflexivity.
Qed.

End Dispatch.

Section Writers.

Lemma sendErrorResponse_fresh w code reason msg :
  Code w = None -> Written w = [] ->
  sendErrorResponse w code reason msg
  = mkWriter (<["Content-Type" := "application/json"]> (Header w)) (Some code)
      [JsonError (mkErrorResponse reason msg)].
Proof.
  intros Hc Hw. unfold sendErrorResponse, Encode, WriteHeader, SetHeader.
  cbn. rewrite Hc. cbn. now rewrite Hw.
Qed.

Lemma created_fresh w a :
  Code w = None -> Written w = [] ->
  created w a
  = mkWriter (<["Content-Type" := "application/json"]> (Header w))
      (Some StatusCreated) [JsonAppointment a].
Proof.
  intros Hc Hw. unfold created, Encode, WriteHeader, SetHeader.
  cbn. rewrite Hc. cbn. now rewrite Hw.
Qed.

End Writers.

Section Acceptance.



End Acceptance.

(* ===================================================================== *)
(** ** Further properties of the handler *)
(* ===================================================================== *)


(** X6. Whenever the year string is an integer the handler answers every
    request with exactly one JSON value, a status among 201, 400, 405,
    409 and 500, and the JSON content type; the value is an appointment
    exactly when the status is 201. *)
Theorem one_json_value_per_response (s : Server) (now : Time) (r : Request)
    (orc : nat -> Store.Oracle) (n : nat) (db : Store.DB) :
  Atoi (yearStr s) <> None ->
  exists code v,
    Code (fst (fst (run (createAppointment s now newWriter r) orc n db)))
      = Some code
    /\ In code [StatusCreated; StatusBadRequest; StatusMethodNotAllowed;
                StatusConflict; StatusInternalServerError]
    /\ Written (fst (fst (run (createAppointment s now newWriter r) orc n db)))
       = [v]
    /\ Header (fst (fst (run (createAppointment s now newWriter r) orc n db)))
         !! "Content-Type" = Some "application/json"
    /\ (code = StatusCreated <-> exists a, v = JsonAppointment a).
Proof.
  intros Hyear.
  destruct (run_outcome s now r orc n db) as (o & db' & ops & Hrun & Ho).
  rewrite Hrun. cbn [fst]. destruct o as [|code reason msg|a];
    cbn [write_outcome].
  - destruct Ho as [Hnone _]. contradiction.
  - destruct Ho as [Hin _].
    exists code, (JsonError (mkErrorResponse reason msg)).
    rewrite sendErrorResponse_fresh by reflexivity. cbn [Code Written Header].
    split; [reflexivity |]. split; [cbn [In] in *; tauto |].
    split; [reflexivity |]. split; [apply lookup_insert_eq |].
    split.
    + intros ->. cbn [In] in Hin. unfold StatusCreated in Hin.
      repeat (destruct Hin as [Hin|Hin]; [discriminate Hin |]). contradiction.
    + intros [a Ha]. discriminate Ha.
  - exists StatusCreated, (JsonAppointment a).
    rewrite created_fresh by reflexivity. cbn [Code Written Header].
    split; [reflexivity |]. split; [cbn [In]; tauto |].
    split; [reflexivity |]. split; [apply lookup_insert_eq |].
    split; eauto.
Qed.

Lemma one_json_value_witness :
  Atoi (yearStr testServer) <> None
  /\ exists code v,
       Code (fst (fst (run (createAppointment testServer (mkTime 2025 10 31 0)
                              newWriter (mkHttpRequest "GET" None))
                         (fun _ => ok) 0%nat Store.empty)))
         = Some code
       /\ In code [StatusCreated; StatusBadRequest; StatusMethodNotAllowed;
                   StatusConflict; StatusInternalServerError]
       /\ Written (fst (fst (run (createAppointment testServer
                                    (mkTime 2025 10 31 0) newWriter
                                    (mkHttpRequest "GET" None))
                               (fun _ => ok) 0%nat Store.empty)))
          = [v]
       /\ Header (fst (fst (run (createAppointment testServer
                                   (mkTime 2025 10 31 0) newWriter
                                   (mkHttpRequest "GET" None))
                              (fun _ => ok) 0%nat Store.empty)))
            !! "Content-Type" = Some "application/json"
       /\ (code = StatusCreated <-> exists a, v = JsonAppointment a).
Proof.
  split; [discriminate |].
  apply (one_json_value_per_response testServer (mkTime 2025 10 31 0)
           (mkHttpRequest "GET" None) (fun _ => ok) 0%nat Store.empty).
  discriminate.
Defined.

(** X7. The holiday check looks the request's own visitDate string up in
    the holiday map: for a string that parses, formatting the parsed date
    gives the string back, so the date is a holiday exactly when the map
    holds true for that string. *)
Theorem holiday_check_is_by_request_string (s : Server) (visit_date : string)
    (visitDate : Time) :
  Parse visit_date = Some visitDate ->
  isPublicHoliday s visitDate = default false (publicHolidays s !! visit_date).
Proof.
  intros Hparse. unfold isPublicHoliday. now rewrite (Format_Parse _ _ Hparse).
Qed.

Lemma holiday_check_witness :
  Parse "2075-12-25" = Some (mkTime 2075 12 25 0)
  /\ isPublicHoliday testServer (mkTime 2075 12 25 0)
     = default false (publicHolidays testServer !! "2075-12-25").
Proof.
  split; [reflexivity |].
  apply (holiday_check_is_by_request_string testServer "2075-12-25"
           (mkTime 2075 12 25 0)).
  reflexivity.
Defined.

(** X2. Once a request has been answered 201, no later request with the
    same visitDate string is answered 201, whatever its names, the clock,
    the failures of its statements and whatever the server did in
    between; and such a request leaves the table as it finds it. *)
Theorem booked_date_is_never_booked_again (s : Server) (now1 now2 : Time)
    (r1 r2 : Request) (req1 req2 : AppointmentRequest)
    (orc1 orc2 : nat -> Store.Oracle) (n1 n2 : nat) (db : Store.DB)
    (threads : list (Handler ResponseWriter)) (acts : list Action) :
  Code (fst (fst (run (createAppointment s now1 newWriter r1) orc1 n1 db)))
    = Some StatusCreated ->
  Body r1 = Some req1 -> Body r2 = Some req2 ->
  VisitDate req2 = VisitDate req1 ->
  let later :=
    sys_db (exec s
              (mkSystem
                 (snd (fst (run (createAppointment s now1 newWriter r1)
                              orc1 n1 db)))
                 threads)
              acts) in
  Code (fst (fst (run (createAppointment s now2 newWriter r2) orc2 n2 later)))
    <> Some StatusCreated
  /\ snd (fst (run (createAppointment s now2 newWriter r2) orc2 n2 later))
     = later.
Proof.
  intros H201 Hb1 Hb2 Hsame later.
  assert (Htaken : 0 < Store.count_rows (Store.rows later) (VisitDate req2)).
  { destruct (run_outcome s now1 r1 orc1 n1 db) as (o & db1 & ops & Hrun & Ho).
    subst later. rewrite Hrun in *. cbn [fst snd] in *.
    destruct o as [|code reason msg|a]; cbn [write_outcome] in H201.
    - discriminate.
    - destruct Ho as [Hin _]. injection H201 as ->.
      cbn [In] in Hin. unfold StatusCreated in Hin.
      repeat (destruct Hin as [Hin|Hin]; [discriminate Hin |]). contradiction.
    - destruct Ho as (year & req & visitDate & _ & _ & Hbody & _ & _ & _ & _
                      & _ & _ & _ & _ & -> & -> & _).
      rewrite Hb1 in Hbody. injection Hbody as <-.
      pose proof (proj1 (exec_steps s acts (mkSystem
                    (Store.mkDB (Store.rows db ++
                       [row_for req1 db (Store.timestamp (orc1 (S n1)))])
                       (Store.seq db + 1)) threads))) as Hext.
      apply (extends_count _ _ (VisitDate req2)) in Hext.
      cbn [sys_db Store.rows] in Hext. rewrite count_rows_app in Hext.
      cbn [Store.count_rows row_for Store.VisitDate] in Hext.
      rewrite <- Hsame, String.eqb_refl in Hext.
      pose proof (count_rows_nonneg (Store.rows db) (VisitDate req2)). lia. }
  destruct (run_outcome s now2 r2 orc2 n2 later) as (o & db2 & ops & Hrun & Ho).
  rewrite Hrun. cbn [fst snd].
  destruct o as [|code reason msg|a]; cbn [write_outcome].
  - split; [discriminate | tauto].
  - destruct Ho as [Hin ->]. split; [| reflexivity].
    intros [= ->]. cbn [In] in Hin. unfold StatusCreated in Hin.
    repeat (destruct Hin as [Hin|Hin]; [discriminate Hin |]). contradiction.
  - destruct Ho as (year & req & visitDate & _ & _ & Hbody & _ & _ & _ & _
                    & _ & H0 & _).
    rewrite Hb2 in Hbody. injection Hbody as <-. lia.
Qed.

Lemma booked_date_witness :
  Code (fst (fst (run (createAppointment testServer (mkTime 2025 10 31 0)
                         newWriter (post "Dana" "Valid" "2075-06-15"))
                    (fun _ => ok) 0%nat Store.empty)))
    = Some StatusCreated
  /\ Code (fst (fst (run (createAppointment testServer (mkTime 2025 11 1 0)
                            newWriter (post "Eve" "Late" "2075-06-15"))
                       (fun _ => ok) 0%nat
                       (sys_db (exec testServer
                          (mkSystem
                             (snd (fst (run (createAppointment testServer
                                               (mkTime 2025 10 31 0) newWriter
                                               (post "Dana" "Valid"
                                                  "2075-06-15"))
                                          (fun _ => ok) 0%nat Store.empty)))
                             [])
                          [])))))
     <> Some StatusCreated.
Proof.
  split; [reflexivity |].
  apply (booked_date_is_never_booked_again testServer (mkTime 2025 10 31 0)
           (mkTime 2025 11 1 0) (post "Dana" "Valid" "2075-06-15")
           (post "Eve" "Late" "2075-06-15")
           (mkRequest "Dana" "Valid" "2075-06-15")
           (mkRequest "Eve" "Late" "2075-06-15")
           (fun _ => ok) (fun _ => ok) 0%nat 0%nat Store.empty [] []
           eq_refl eq_refl eq_refl eq_refl).
Defined.

Section Holidays.

Lemma cacheHolidays_lookup holidays : forall (m : gmap string bool) d,
  cacheHolidays m holidays !! d
  = if decide (d ∈ Nager.Date <$> holidays) then Some true else m !! d.
Proof.
  induction holidays as [|h hs IH]; intros m d; cbn [fmap list_fmap].
  - cbn. destruct (decide (d ∈ [])) as [Hin|_]; [| reflexivity].
    now apply elem_of_nil in Hin.
  - unfold cacheHolidays in *. cbn [fold_left]. rewrite IH.
    destruct (decide (d ∈ Nager.Date <$> hs)) as [Hin|Hout].
    + rewrite decide_True; [reflexivity | now right].
    + destruct (decide (d = Nager.Date h)) as [->|Hne].
      * rewrite lookup_insert_eq. rewrite decide_True; [reflexivity | now left].
      * rewrite lookup_insert_ne by congruence.
        rewrite decide_False; [reflexivity |].
        intros Hin. apply elem_of_cons in Hin as [?|?]; contradiction.
Qed.

End Holidays.

(** X8. [loadPublicHolidays] always leaves the server with the year
    string it was given, even when it returns an error, and never touches
    the override. When the fetch answers 200 with a body that decodes it
    returns no error and the holiday map holds true for every fetched
    date and is as before for every other date; in every other case it
    returns an error and the holiday map is as before. *)
Theorem loadPublicHolidays_effect (s : Server) (year countryCode : string)
    (get : string -> GetResult) :
  yearStr (fst (loadPublicHolidays s year countryCode get)) = year
  /\ todayOverride (fst (loadPublicHolidays s year countryCode get))
     = todayOverride s
  /\ (forall holidays,
        get ("https://date.nager.at/api/v3/PublicHolidays/" +:+ year
             +:+ "/" +:+ countryCode)
        = GetResponse 200 (Some holidays) ->
        snd (loadPublicHolidays s year countryCode get) = None
        /\ forall d,
             publicHolidays (fst (loadPublicHolidays s year countryCode get))
               !! d
             = if decide (d ∈ Nager.Date <$> holidays) then Some true
               else publicHolidays s !! d)
  /\ ((forall holidays,
         get ("https://date.nager.at/api/v3/PublicHolidays/" +:+ year
              +:+ "/" +:+ countryCode)
         <> GetResponse 200 (Some holidays)) ->
      snd (loadPublicHolidays s year countryCode get) <> None
      /\ publicHolidays (fst (loadPublicHolidays s year countryCode get))
         = publicHolidays s).
Proof.
  unfold loadPublicHolidays.
  destruct (get _) as [|code [holidays|]] eqn:Hget.
  - cbn [fst snd yearStr todayOverride publicHolidays].
    split; [reflexivity |]. split; [reflexivity |]. split.
    + intros hs Hhs. discriminate Hhs.
    + intros _. split; [discriminate | reflexivity].
  - destruct (Z.eqb_spec code 200) as [->|Hne];
      cbn [negb fst snd yearStr todayOverride publicHolidays];
      (split; [reflexivity |]); (split; [reflexivity |]); split.
    + intros hs [= <-]. split; [reflexivity |]. apply cacheHolidays_lookup.
    + intros Hno. exfalso. now apply (Hno holidays).
    + intros hs [= -> _]. contradiction.
    + intros _. split; [discriminate | reflexivity].
  - destruct (Z.eqb code 200);
      cbn [negb fst snd yearStr todayOverride publicHolidays];
      (split; [reflexivity |]); (split; [reflexivity |]); split.
    + intros hs Hhs. discriminate Hhs.
    + intros _. split; [discriminate | reflexivity].
    + intros hs Hhs. discriminate Hhs.
    + intros _. split; [discriminate | reflexivity].
Qed.

(** X9. After a load that succeeded, a request whose visitDate is one of
    the fetched dates is never answered 201 and never changes the
    table. *)
Theorem loaded_holiday_is_never_booked (s : Server) (year countryCode : string)
    (get : string -> GetResult) (holidays : list Nager.PublicHoliday)
    (h : Nager.PublicHoliday) (now : Time) (r : Request)
    (req : AppointmentRequest) (orc : nat -> Store.Oracle) (n : nat)
    (db : Store.DB) :
  get ("https://date.nager.at/api/v3/PublicHolidays/" +:+ year
       +:+ "/" +:+ countryCode)
  = GetResponse 200 (Some holidays) ->
  In h holidays ->
  Body r = Some req ->
  VisitDate req = Nager.Date h ->
  Code (fst (fst (run (createAppointment
                         (fst (loadPublicHolidays s year countryCode get))
                         now newWriter r) orc n db)))
    <> Some StatusCreated
  /\ snd (fst (run (createAppointment
                      (fst (loadPublicHolidays s year countryCode get))
                      now newWriter r) orc n db))
     = db.
Proof.
  intros Hget Hin Hbody Hdate.
  assert (Hmap : publicHolidays (fst (loadPublicHolidays s year countryCode get))
                   !! VisitDate req = Some true).
  { unfold loadPublicHolidays. rewrite Hget.
    change (200 =? 200) with true. cbn [negb fst publicHolidays].
    rewrite cacheHolidays_lookup, decide_True; [reflexivity |].
    rewrite Hdate. apply list_elem_of_fmap. exists h. split; [reflexivity |].
    now apply list_elem_of_In. }
  destruct (run_outcome (fst (loadPublicHolidays s year countryCode get))
              now r orc n db) as (o & db' & ops & Hrun & Ho).
  rewrite Hrun. cbn [fst snd].
  destruct o as [|code reason msg|a]; cbn [write_outcome].
  - split; [discriminate | tauto].
  - destruct Ho as [Hc ->]. split; [| reflexivity].
    intros [= ->]. cbn [In] in Hc. unfold StatusCreated in Hc.
    repeat (destruct Hc as [Hc|Hc]; [discriminate Hc |]). contradiction.
  - destruct Ho as (y & req' & visitDate & _ & _ & Hbody' & _ & Hparse & _ & _
                    & Hhol & _).
    rewrite Hbody in Hbody'. injection Hbody' as <-.
    unfold isPublicHoliday in Hhol.
    rewrite (Format_Parse _ _ Hparse), Hmap in Hhol. discriminate Hhol.
Qed.

Lemma loaded_holiday_witness :
  getChristmas ("https://date.nager.at/api/v3/PublicHolidays/" +:+ "2075"
                +:+ "/" +:+ "GB")
  = GetResponse 200 (Some [christmas])
  /\ In christmas [christmas]
  /\ Code (fst (fst (run (createAppointment
                            (fst (loadPublicHolidays NewServer "2075" "GB"
                                    getChristmas))
                            (mkTime 2025 10 31 0) newWriter
                            (post "Charlie" "HolidayClash" "2075-12-25"))
                       (fun _ => ok) 0%nat Store.empty)))
     <> Some StatusCreated.
Proof.
  split; [reflexivity |]. split; [now left |].
  apply (loaded_holiday_is_never_booked NewServer "2075" "GB" getChristmas
           [christmas] christmas (mkTime 2025 10 31 0)
           (post "Charlie" "HolidayClash" "2075-12-25")
           (mkRequest "Charlie" "HolidayClash" "2075-12-25")
           (fun _ => ok) 0%nat Store.empty
           eq_refl (or_introl eq_refl) eq_refl eq_refl).
Defined.

Section Middleware.

Lemma client_view_write_outcome w o :
  Code w = None -> Written w = [] ->
  client_view (write_outcome w o) = client_view (write_outcome newWriter o).
Proof.
  intros Hc Hw. destruct o as [|code reason msg|a]; cbn [write_outcome].
  - unfold client_view. now rewrite Hc, Hw.
  - rewrite !sendErrorResponse_fresh by (assumption || reflexivity).
    reflexivity.
  - rewrite !created_fresh by (assumption || reflexivity). reflexivity.
Qed.

Lemma cors_headers_write_outcome o : cors_headers (write_outcome corsWriter o).
Proof.
  destruct o as [|code reason msg|a]; cbn [write_outcome];
    rewrite ?sendErrorResponse_fresh, ?created_fresh by reflexivity;
    repeat split; vm_compute; reflexivity.
Qed.

End Middleware.

(** X10. Around [createAppointment] the CORS middleware gives every
    response its three headers. It answers an OPTIONS request itself,
    whatever handler follows: status 200, no body, no statement sent.
    For every other method the status, the body, the table and the
    statements are those of [createAppointment] on its own. *)
Theorem cors_middleware_wraps_the_handler (s : Server) (now : Time)
    (r : Request) (orc : nat -> Store.Oracle) (n : nat) (db : Store.DB) :
  cors_headers
    (fst (fst (run (corsMiddleware (createAppointment s now) newWriter r)
                 orc n db)))
  /\ (forall next,
        Method r = "OPTIONS" ->
        run (corsMiddleware next newWriter r) orc n db
        = (WriteHeader corsWriter 200, db, [])
        /\ client_view (WriteHeader corsWriter 200) = (200, []))
  /\ (Method r <> "OPTIONS" ->
      client_view
        (fst (fst (run (corsMiddleware (createAppointment s now) newWriter r)
                     orc n db)))
      = client_view
          (fst (fst (run (createAppointment s now newWriter r) orc n db)))
      /\ snd (fst (run (corsMiddleware (createAppointment s now) newWriter r)
                     orc n db))
         = snd (fst (run (createAppointment s now newWriter r) orc n db))
      /\ snd (run (corsMiddleware (createAppointment s now) newWriter r)
                orc n db)
         = snd (run (createAppointment s now newWriter r) orc n db)).
Proof.
  destruct (run_outcome s now r orc n db) as (o & db' & ops & Hrun & _).
  unfold corsMiddleware. fold corsWriter.
  split; [| split].
  - destruct (String.eqb (Method r) "OPTIONS").
    + cbn [run fst]. repeat split; vm_compute; reflexivity.
    + rewrite Hrun. cbn [fst]. apply cors_headers_write_outcome.
  - intros next ->. cbn [String.eqb run]. split; reflexivity.
  - intros Hne. apply String.eqb_neq in Hne. rewrite Hne, !Hrun.
    cbn [fst snd]. split; [| split; reflexivity].
    now apply client_view_write_outcome.
Qed.

(** X11. With a lookup that does not fail, [appointmentExists] answers
    true exactly when some row of the table has the formatted date, and
    false otherwise; a failed lookup is answered false with the error.
    Either way it sends the one count query and leaves the table as it
    is. *)
Theorem appointmentExists_is_membership (visitDate : Time)
    (orc : nat -> Store.Oracle) (n : nat) (db : Store.DB) :
  run (appointmentExists visitDate) orc n db
  = (match Store.fault (orc n) with
     | Some e => (false, Some e)
     | None => (bool_decide (Format visitDate ∈ Store.dates db), None)
     end,
     db, [OpCount (Format visitDate)]).
Proof.
  unfold appointmentExists. cbn [run]. unfold Store.select_count.
  destruct (Store.fault (orc n)) as [e|]; cbn [run]; [reflexivity |].
  do 3 f_equal. unfold Store.dates.
  destruct (Z.ltb_spec 0 (Store.count_rows (Store.rows db) (Format visitDate)))
    as [Hc|Hc]; symmetry.
  - apply bool_decide_eq_true_2, list_elem_of_In, count_rows_In, Hc.
  - apply bool_decide_eq_false_2. intros Hin.
    apply list_elem_of_In, count_rows_In in Hin. lia.
Qed.

Section Clock.

Lemma daysIn_other_months m year year' :
  m <> 2 -> daysIn m year = daysIn m year'.
Proof.
  intros Hm. unfold daysIn.
  destruct (Z.eqb_spec m 2); [contradiction | reflexivity].
Qed.

Lemma daysIn_february year : daysIn 2 year = 28 \/ daysIn 2 year = 29.
Proof. unfold daysIn. destruct (isLeap year); cbn; tauto. Qed.

End Clock.

(** X12. Without an override, and for a server year that a [time.Time]
    can hold, the reference today is midnight of the clock's month and
    day in the server's year; when that day does not exist there, which
    is February 29 with a server year that is not a leap year, it is
    March 1 of the server's year. *)
Theorem reference_today_from_clock (s : Server) (year : Z) (now : Time) :
  todayOverride s = None ->
  representable_year year ->
  valid_time now ->
  referenceToday s year now
  = if t_day now <=? daysIn (t_month now) year
    then mkTime year (t_month now) (t_day now) 0
    else mkTime year 3 1 0.
Proof.
  intros Hnone _ (Hm & Hd & _). unfold referenceToday. rewrite Hnone.
  unfold Date.
  replace ((t_month now - 1) / 12) with 0
    by (symmetry; apply Z.div_small; lia).
  rewrite Z.mod_small, Z.add_0_r by lia.
  replace (t_month now - 1 + 1) with (t_month now) by lia.
  destruct (Z.to_nat (t_day now)) as [|fuel] eqn:Hf; [lia |].
  cbn [norm_day].
  destruct (Z.leb_spec (t_day now) (daysIn (t_month now) year)) as [|Hover];
    [reflexivity |].
  destruct (Z.eq_dec (t_month now) 2) as [H2|Hn2].
  - rewrite H2 in *.
    destruct (daysIn_february year) as [H28|H29];
      destruct (daysIn_february (t_year now)) as [H28'|H29']; try lia.
    rewrite H28. change (2 =? 12) with false. cbn match.
    replace (t_day now - 28) with 1 by lia.
    now rewrite norm_day_short by lia.
  - rewrite (daysIn_other_months _ year (t_year now)) in Hover by assumption.
    lia.
Qed.

Lemma reference_today_witness :
  todayOverride (mkServer testHolidays "2075" None) = None
  /\ representable_year 2075
  /\ valid_time (mkTime 2028 2 29 0)
  /\ referenceToday (mkServer testHolidays "2075" None) 2075
       (mkTime 2028 2 29 0)
     = mkTime 2075 3 1 0.
Proof.
  split; [reflexivity |].
  split; [unfold representable_year; lia |].
  split; [repeat split; vm_compute; congruence |].
  apply (reference_today_from_clock (mkServer testHolidays "2075" None) 2075
           (mkTime 2028 2 29 0) eq_refl).
  - unfold representable_year; lia.
  - repeat split; vm_compute; congruence.
Defined.

(* ===================================================================== *)
(** ** The running server: what is stored and what is confirmed *)
(* ===================================================================== *)

Section ServerInvariant.

Variable s : Server.

Lemma booking_Some w a : booking w = Some a -> Written w = [JsonAppointment a].
Proof.
  unfold booking. destruct (Written w) as [|[e|a'] [|? ?]]; try discriminate.
  now intros [= ->].
Qed.

Lemma rejected_not_booked code reason msg :
  code <> StatusCreated ->
  booking (sendErrorResponse newWriter code reason msg) = None
  /\ Code (sendErrorResponse newWriter code reason msg) <> Some StatusCreated.
Proof.
  intros Hne. rewrite sendErrorResponse_fresh by reflexivity.
  split; [reflexivity |]. cbn [Code]. congruence.
Qed.

Lemma matches_layout_parsed d t : Parse d = Some t -> matches_layout d = true.
Proof.
  intros Hparse. destruct (matches_layout d) eqn:Hl; [reflexivity |].
  apply Parse_layout in Hl. congruence.
Qed.

(** A handler that has just started has not booked anything, and what it
    may go on to insert is a well-formed row. *)
Lemma createAppointment_thread_inv now r :
  thread_inv s (createAppointment s now newWriter r)
  /\ forall w, createAppointment s now newWriter r = Ret w -> booking w = None.
Proof.
  destruct (createAppointment_dispatch s now r)
    as [[_ Hc] | [(code & reason & msg & Hcode & Hc)
       | (year & req & visitDate & _ & _ & _ & Hfields & Hparse & _ & _
          & Hhol & Hform)]].
  - rewrite Hc. split.
    + cbn [thread_inv]. unfold settled. cbn. discriminate.
    + intros w [= <-]. reflexivity.
  - rewrite Hc.
    assert (Hne : code <> StatusCreated)
      by (destruct Hcode as [-> | ->]; discriminate).
    destruct (rejected_not_booked code reason msg Hne) as [Hb Hcd]. split.
    + cbn [thread_inv]. unfold settled. now rewrite Hb.
    + now intros w [= <-].
  - destruct (Hform newWriter) as (k & -> & Herr & Hdup & Hins).
    split; [| discriminate].
    cbn [thread_inv]. intros [count|e].
    + destruct (Z.lt_ge_cases 0 count) as [Hpos|Hle].
      * rewrite Hdup by assumption. now apply rejected_not_booked.
      * destruct (Hins count) as (k' & -> & Hk'); [lia |].
        apply orb_false_iff in Hfields as [Hfields H3].
        apply orb_false_iff in Hfields as [H1 H2].
        unfold insert_ok. rewrite (Format_Parse _ _ Hparse).
        repeat split; try (apply Hk'); try (now apply is_empty_false).
        -- eapply matches_layout_parsed; eassumption.
        -- unfold isPublicHoliday in Hhol.
           now rewrite (Format_Parse _ _ Hparse) in Hhol.
    + rewrite Herr. now apply rejected_not_booked.
Qed.

Lemma at_most_one_same_date l d a b :
  Store.count_rows l d <= 1 -> In a l -> In b l ->
  Store.VisitDate a = d -> Store.VisitDate b = d -> a = b.
Proof.
  induction l as [|x l IH]; cbn [Store.count_rows In]; [tauto |].
  intros Hc Ha Hb Hda Hdb.
  pose proof (count_rows_nonneg l d) as Hn.
  assert (Hin : forall y, In y l -> Store.VisitDate y = d ->
                          0 < Store.count_rows l d).
  { intros y Hy Hdy. apply count_rows_In. rewrite <- Hdy. now apply in_map. }
  destruct (String.eqb_spec (Store.VisitDate x) d) as [Hx|Hx].
  - destruct Ha as [<-|Ha], Hb as [<-|Hb]; try reflexivity.
    + specialize (Hin b Hb Hdb). lia.
    + specialize (Hin a Ha Hda). lia.
    + specialize (Hin a Ha Hda). lia.
  - destruct Ha as [<-|Ha]; [contradiction |].
    destruct Hb as [<-|Hb]; [contradiction |].
    apply IH; (assumption || lia).
Qed.

Lemma confirmed_insert db db' ts i h' j a :
  (i < length ts)%nat ->
  confirmed (mkSystem db' (<[i := h']> ts)) j a ->
  (j = i /\ exists w, h' = Ret w /\ booking w = Some a)
  \/ (j <> i /\ confirmed (mkSystem db ts) j a).
Proof.
  intros Hi (w & Hl & Hb). cbn [sys_threads] in Hl.
  destruct (decide (j = i)) as [->|Hne].
  - left. split; [reflexivity |].
    rewrite list_lookup_insert_eq in Hl by assumption.
    injection Hl as ->. eauto.
  - right. split; [assumption |].
    rewrite list_lookup_insert_ne in Hl by congruence.
    exists w. split; assumption.
Qed.

(** A step that leaves the table alone and confirms nothing new. *)
Lemma server_inv_quiet db ts ts' :
  Forall (thread_inv s) ts' ->
  (forall j a, confirmed (mkSystem db ts') j a ->
               confirmed (mkSystem db ts) j a) ->
  server_inv s (mkSystem db ts) -> server_inv s (mkSystem db ts').
Proof.
  intros Hts Hconf [_ Hrows Hids Hone Hcrow Hcid].
  constructor; cbn [sys_db sys_threads] in *; try assumption.
  - intros j a Hc. eapply Hcrow, Hconf, Hc.
  - intros i j a b Ha Hb. eapply Hcid; eapply Hconf; eassumption.
Qed.

Lemma act_server_inv sys a :
  server_inv s sys -> server_inv s (act s sys a).
Proof.
  destruct sys as [db ts]. intros Hinv.
  destruct a as [now r|i o]; cbn [act sys_db sys_threads].
  - destruct (createAppointment_thread_inv now r) as [Hnew Hfresh].
    apply (server_inv_quiet db ts); [| | assumption].
    + apply Forall_app. split; [apply Hinv |]. now constructor.
    + intros j a (w & Hl & Hb). cbn [sys_threads] in Hl.
      apply lookup_app_Some in Hl as [Hl | [_ Hl]].
      * exists w. split; assumption.
      * apply list_lookup_singleton_Some in Hl as [_ Hl].
        rewrite (Hfresh w Hl) in Hb. discriminate.
  - destruct (ts !! i) as [h|] eqn:Hi; [| assumption].
    pose proof (lookup_lt_Some _ _ _ Hi) as Hlen.
    pose proof (Forall_lookup_1 _ _ _ _ (inv_threads _ _ Hinv) Hi) as Hh.
    cbn [sys_threads] in Hh.
    destruct h as [w|d k|fn ln d k]; cbn [fire thread_inv] in *.
    + rewrite list_insert_id by assumption. assumption.
    + specialize (Hh (Store.select_count o db d)).
      apply (server_inv_quiet db ts); [| | assumption].
      * apply Forall_insert; [apply Hinv |].
        destruct (k (Store.select_count o db d)) as [w| |];
          cbn [thread_inv]; [| contradiction | assumption].
        unfold settled. destruct Hh as [-> Hc]. assumption.
      * intros j a Hc.
        apply (confirmed_insert db) in Hc
          as [(_ & w & Hk & Hb) | [_ Hc]]; [| assumption | assumption].
        rewrite Hk in Hh. destruct Hh as [Hnone _]. congruence.
    + destruct Hh as ([Herr Hok] & Hfn & Hln & Hlay & Hhol).
      destruct (insert_returning_cases o db fn ln d)
        as [(e & -> & _) | (a & -> & Hd & Hfn' & Hln' & Hid & _ & H0)].
      * rewrite Herr.
        destruct (rejected_not_booked StatusInternalServerError
                    "database_error" "Failed to create appointment")
          as [Hb Hc]; [discriminate |].
        apply (server_inv_quiet db ts); [| | assumption].
        -- apply Forall_insert; [apply Hinv |].
           cbn [thread_inv]. unfold settled. now rewrite Hb.
        -- intros j a Hcf.
           apply (confirmed_insert db) in Hcf
             as [(_ & w & [= <-] & Hb') | [_ Hcf]]; [| assumption | assumption].
           congruence.
      * rewrite Hok.
        assert (Hbk : booking (created newWriter a) = Some a) by reflexivity.
        destruct Hinv as [Hts Hrows (Hseq & Hbound & Hincr) Hone Hcrow Hcid].
        cbn [sys_db sys_threads] in *.
        constructor; cbn [sys_db sys_threads Store.rows Store.seq].
        -- apply Forall_insert; [assumption |].
           cbn [thread_inv]. unfold settled. rewrite Hbk. reflexivity.
        -- apply Forall_app. split; [assumption |].
           constructor; [| constructor].
           unfold well_formed_row. rewrite Hd, Hfn', Hln'. tauto.
        -- split; [cbn; lia |]. split.
           ++ cbn [Store.rows Store.seq]. apply Forall_app. split.
              ** eapply Forall_impl; [exact Hbound |].
                 cbn beta. intros; lia.
              ** constructor; [lia | constructor].
           ++ cbn [Store.rows]. intros i' j' x y Hx Hy Hlt.
              apply lookup_app_Some in Hx as [Hx | [Hge Hx]];
                apply lookup_app_Some in Hy as [Hy | [Hge' Hy]].
              ** eapply Hincr; eassumption.
              ** apply list_lookup_singleton_Some in Hy as [_ <-].
                 pose proof (Forall_lookup_1 _ _ _ _ Hbound Hx) as Hbx.
                 cbn beta in Hbx. lia.
              ** apply lookup_lt_Some in Hy. lia.
              ** apply list_lookup_singleton_Some in Hx as [Hx _].
                 apply list_lookup_singleton_Some in Hy as [Hy _]. lia.
        -- intros d'. cbn [Store.rows]. rewrite count_rows_app.
           cbn [Store.count_rows]. rewrite Hd.
           destruct (String.eqb_spec d d') as [<-|_]; [lia |].
           specialize (Hone d'). lia.
        -- intros j x Hc.
           apply (confirmed_insert db) in Hc
             as [(_ & w & [= <-] & Hb) | [_ Hc]]; [| | assumption].
           ++ rewrite Hbk in Hb. injection Hb as <-.
              apply in_or_app. right. now left.
           ++ apply in_or_app. left. eapply Hcrow, Hc.
        -- assert (Hold : forall j x, confirmed (mkSystem db ts) j x ->
                                      Store.ID x <= Store.seq db).
           { intros j x Hc. apply Hcrow, list_elem_of_In in Hc.
             pose proof (proj1 (Forall_forall _ _) Hbound x Hc) as Hx.
             cbn beta in Hx. lia. }
           intros i' j' x y Hx Hy Hxy.
           apply (confirmed_insert db) in Hx
             as [(-> & w & [= <-] & Hbx) | [Hi' Hx]]; [| | assumption];
             apply (confirmed_insert db) in Hy
               as [(-> & w' & [= <-] & Hby) | [Hj' Hy]];
             try assumption; try reflexivity.
           ++ rewrite Hbk in Hbx. injection Hbx as <-.
              specialize (Hold _ _ Hy). lia.
           ++ rewrite Hbk in Hby. injection Hby as <-.
              specialize (Hold _ _ Hx). lia.
           ++ eapply Hcid; eassumption.
Qed.

Lemma exec_server_inv acts : forall sys,
  server_inv s sys -> server_inv s (exec s sys acts).
Proof.
  induction acts as [|a acts IH]; intros sys Hinv; cbn [exec fold_left];
    [assumption |].
  apply IH, act_server_inv, Hinv.
Qed.

Lemma boot_server_inv : server_inv s boot.
Proof.
  constructor; cbn [boot sys_db sys_threads Store.empty Store.rows].
  - constructor.
  - constructor.
  - split; [cbn; lia |]. split; [constructor |].
    intros i j a b Ha. cbn in Ha. rewrite lookup_nil in Ha. discriminate.
  - intros d. cbn. lia.
  - intros i a (w & Hl & _). cbn in Hl. rewrite lookup_nil in Hl. discriminate.
  - intros i j a b (w & Hl & _). cbn in Hl. rewrite lookup_nil in Hl.
    discriminate.
Qed.

Lemma reachable_server_inv acts : server_inv s (exec s boot acts).
Proof. apply exec_server_inv, boot_server_inv. Qed.

End ServerInvariant.

(** X3. Whatever requests arrive and however their statements
    interleave, every row of the table has both names non-empty, a visit
    date that is a real calendar date in the YYYY-MM-DD layout, and a
    visit date that is not a holiday of the server. *)
Theorem stored_rows_are_well_formed (s : Server) (acts : list Action) :
  Forall (well_formed_row s) (Store.rows (sys_db (exec s boot acts))).
Proof. apply (inv_rows s _ (reachable_server_inv s acts)). Qed.

(** X5. In every state the server reaches, the ids of the rows are
    positive, never above the AUTOINCREMENT counter, and strictly
    growing in insertion order, so no two rows share an id. *)
Theorem ids_grow_with_insertion (s : Server) (acts : list Action) :
  ids_ascending (sys_db (exec s boot acts)).
Proof. apply (inv_ids s _ (reachable_server_inv s acts)). Qed.

(** X4. In every state the server reaches, two different handlers that
    both answered 201 each carry an appointment that is a row of the
    table, and the two appointments differ in id and in visit date: no
    date is ever confirmed to two requests. *)
Theorem confirmed_bookings_have_distinct_dates (s : Server)
    (acts : list Action) (i j : nat) (wi wj : ResponseWriter) :
  sys_threads (exec s boot acts) !! i = Some (Ret wi) ->
  sys_threads (exec s boot acts) !! j = Some (Ret wj) ->
  Code wi = Some StatusCreated ->
  Code wj = Some StatusCreated ->
  i <> j ->
  exists a b,
    Written wi = [JsonAppointment a] /\ Written wj = [JsonAppointment b]
    /\ In a (Store.rows (sys_db (exec s boot acts)))
    /\ In b (Store.rows (sys_db (exec s boot acts)))
    /\ Store.ID a <> Store.ID b
    /\ Store.VisitDate a <> Store.VisitDate b.
Proof.
  intros Hi Hj Hci Hcj Hne.
  pose proof (reachable_server_inv s acts) as [Hts _ _ Hone Hcrow Hcid].
  pose proof (Forall_lookup_1 _ _ _ _ Hts Hi) as Hsi.
  pose proof (Forall_lookup_1 _ _ _ _ Hts Hj) as Hsj.
  cbn [thread_inv] in Hsi, Hsj. unfold settled in Hsi, Hsj.
  destruct (booking wi) as [a|] eqn:Hbi; [| contradiction].
  destruct (booking wj) as [b|] eqn:Hbj; [| contradiction].
  assert (Hca : confirmed (exec s boot acts) i a) by (exists wi; tauto).
  assert (Hcb : confirmed (exec s boot acts) j b) by (exists wj; tauto).
  assert (Hid : Store.ID a <> Store.ID b).
  { intros Heq. apply Hne. eapply Hcid; eassumption. }
  exists a, b.
  split; [now apply booking_Some |]. split; [now apply booking_Some |].
  split; [eapply Hcrow, Hca |]. split; [eapply Hcrow, Hcb |].
  split; [assumption |].
  intros Hd. apply Hid. f_equal.
  eapply (at_most_one_same_date _ (Store.VisitDate a)).
  - apply Hone.
  - eapply Hcrow, Hca.
  - eapply Hcrow, Hcb.
  - reflexivity.
  - now symmetry.
Qed.

Lemma confirmed_bookings_witness :
  exists wi wj,
    sys_threads (exec testServer boot two_bookings) !! 0%nat = Some (Ret wi)
    /\ sys_threads (exec testServer boot two_bookings) !! 1%nat
       = Some (Ret wj)
    /\ Code wi = Some StatusCreated /\ Code wj = Some StatusCreated
    /\ 0%nat <> 1%nat
    /\ exists a b,
         Written wi = [JsonAppointment a] /\ Written wj = [JsonAppointment b]
         /\ In a (Store.rows (sys_db (exec testServer boot two_bookings)))
         /\ In b (Store.rows (sys_db (exec testServer boot two_bookings)))
         /\ Store.ID a <> Store.ID b
         /\ Store.VisitDate a <> Store.VisitDate b.
Proof.
  eexists. eexists.
  split; [vm_compute; reflexivity |]. split; [vm_compute; reflexivity |].
  split; [reflexivity |]. split; [reflexivity |]. split; [discriminate |].
  eapply (confirmed_bookings_have_distinct_dates testServer two_bookings 0 1).
  - vm_compute. reflexivity.
  - vm_compute. reflexivity.
  - reflexivity.
  - reflexivity.
  - discriminate.
Defined.
